(** * Universal Dashboard (Basic): the record store and its handlers

    A shallow embedding of [universal_dashboard_basic.py].  The script keeps
    one dictionary [data] with the four lists [tasks], [notes], [habits] and
    [mood_log]; every button handler mutates [data], pickles it to
    [dashboard_data_basic.pkl] and asks Streamlit to rerun the script.

    Python values are modelled as the script uses them: a [str] is a list of
    Unicode code points, an [int] is a [Z], a [dict] with string keys is a
    [gmap string _] and a [list] is a [list]. *)

From Stdlib Require Import ZArith NArith Ascii String List Lia.
From stdpp Require Import base option list countable strings gmap fin_maps.

Local Open Scope string_scope.
Local Open Scope list_scope.

(** ** Python strings *)

(** A Python [str]: the sequence of its code points. *)
Abbreviation str := (list N).

(** The code points of an ASCII literal of the script. *)
Definition py (s : string) : str :=
  (fun a => N_of_ascii a) <$> list_ascii_of_string s.

(** [str.isspace] on one code point, the table [_PyUnicode_IsWhitespace] of
    CPython, which [str.strip()] consults. *)
Definition isspace (c : N) : bool :=
  ((0x09 <=? c) && (c <=? 0x0D) || (0x1C <=? c) && (c <=? 0x20)
   || (c =? 0x85) || (c =? 0xA0) || (c =? 0x1680)
   || (0x2000 <=? c) && (c <=? 0x200A)
   || (c =? 0x2028) || (c =? 0x2029) || (c =? 0x202F) || (c =? 0x205F)
   || (c =? 0x3000))%N.

Fixpoint lstrip (s : str) : str :=
  match s with
  | c :: r => if isspace c then lstrip r else s
  | [] => []
  end.

Definition rstrip (s : str) : str := reverse (lstrip (reverse s)).

(** [s.strip()]: whitespace is dropped on the left, then on the right. *)
Definition strip (s : str) : str := rstrip (lstrip s).

(** A string with no whitespace at either end. *)
Definition trimmed (s : str) : Prop :=
  (forall c, head s = Some c -> isspace c = false) /\
  (forall c, last s = Some c -> isspace c = false).

(** ** Python values, records and the store *)

(** The values the script stores in its records: strings and the integer
    streak counter. *)
Inductive value : Type :=
  | VStr (s : str)
  | VInt (n : Z).

#[global] Instance value_eq_dec : EqDecision value.
Proof. solve_decision. Defined.

#[global] Instance value_countable : Countable value.
Proof.
  refine (inj_countable'
            (fun v => match v with VStr s => inl s | VInt n => inr n end)
            (fun x => match x with inl s => VStr s | inr n => VInt n end) _).
  intros []; reflexivity.
Defined.

(** A task, note, habit or mood entry: a [dict] with string keys. *)
Abbreviation record := (gmap string value).

(** [data]: a [dict] from the list names to the lists of records. *)
Abbreviation store := (gmap string (list (gmap string value))).

(** The literal [{"tasks": [], "notes": [], "habits": [], "mood_log": []}]. *)
Definition empty_store : store :=
  <["tasks" := []]> (<["notes" := []]> (<["habits" := []]> (<["mood_log" := []]> ∅))).

(** ** Exceptions *)

(** The exceptions the modelled statements can raise; all of them are
    subclasses of [Exception]. *)
Inductive exn : Type :=
  | KeyError
  | IndexError
  | TypeError
  | UnpicklingError.

Inductive result (A : Type) : Type :=
  | Ok (a : A)
  | Raise (e : exn).
Arguments Ok {A} a.
Arguments Raise {A} e.

Definition bind {A B} (r : result A) (k : A -> result B) : result B :=
  match r with
  | Ok a => k a
  | Raise e => Raise e
  end.

Notation "x <- r ;; k" := (bind r (fun x => k))
  (at level 100, r at next level, right associativity).

(** [try: body / except Exception: handler]. *)
Definition try_except {A} (body : result A) (handler : exn -> result A) : result A :=
  match body with
  | Ok a => Ok a
  | Raise e => handler e
  end.

(** [d[k]] on a dict: [KeyError] when the key is absent. *)
Definition getitem {A} (d : gmap string A) (k : string) : result A :=
  match d !! k with
  | Some a => Ok a
  | None => Raise KeyError
  end.

(** [l[i]] on a list, for the non-negative indices [enumerate] yields. *)
Definition list_getitem {A} (l : list A) (i : nat) : result A :=
  match l !! i with
  | Some a => Ok a
  | None => Raise IndexError
  end.

(** [l.pop(i)]: the list without its element at [i]; [IndexError] out of
    range. *)
Definition pop {A} (l : list A) (i : nat) : result (list A) :=
  match l !! i with
  | Some _ => Ok (delete i l)
  | None => Raise IndexError
  end.

(** [a + b]: integer addition; a string and an integer do not add. *)
Definition py_add (a b : value) : result value :=
  match a, b with
  | VInt x, VInt y => Ok (VInt (x + y))
  | VStr x, VStr y => Ok (VStr (x ++ y))
  | _, _ => Raise TypeError
  end.

(** ** Dates *)

(** A [datetime.date]. *)
Record date : Type := Date { year : N; month : N; day : N }.

Definition digit (n : N) : N := (0x30 + n mod 10)%N.

(** [d.isoformat()], that is ['%04d-%02d-%02d'] of the year, month and day
    (a [datetime.date] has a year of at most four digits). *)
Definition isoformat (d : date) : str :=
  [digit (year d / 1000); digit (year d / 100); digit (year d / 10); digit (year d);
   0x2D%N;
   digit (month d / 10); digit (month d);
   0x2D%N;
   digit (day d / 10); digit (day d)].

(** ** The choices the widgets offer *)

(** [st.selectbox("Priority", ["Low", "Medium", "High"])]. *)
Inductive priority : Type := Low | Medium | High.

Definition priority_label (p : priority) : str :=
  match p with
  | Low => py "Low"
  | Medium => py "Medium"
  | High => py "High"
  end.

(** [st.selectbox("Status", ["Pending", "Completed"])]. *)
Inductive status : Type := Pending | Completed.

Definition status_label (s : status) : str :=
  match s with
  | Pending => py "Pending"
  | Completed => py "Completed"
  end.

(** [mood_options], the five labels of the slider, in order. *)
Definition mood_options : list str :=
  [0x1F622%N :: py " Sad";
   0x1F610%N :: py " Meh";
   0x1F642%N :: py " Good";
   0x1F603%N :: py " Great";
   0x1F929%N :: py " Awesome"].

(** [st.select_slider(..., options=mood_options)] returns one of the five
    options. *)
Inductive mood : Type := Sad | Meh | Good | Great | Awesome.

Definition mood_index (m : mood) : nat :=
  match m with
  | Sad => 0
  | Meh => 1
  | Good => 2
  | Great => 3
  | Awesome => 4
  end.

Definition mood_label (m : mood) : str :=
  default [] (mood_options !! mood_index m).

(** ** Button handlers *)

(** What a handler does to the script: [Rerun d] is the mutation of [data]
    into [d] followed by [save_data(data)] and [st.experimental_rerun()];
    [Warning msg] is [st.warning(msg)] with [data] untouched. *)
Inductive outcome : Type :=
  | Rerun (d : store)
  | Warning (msg : string).

(** The record [add_task] appends. *)
Definition new_task (task_name : str) (p : priority) (due_date : date) : record :=
  <["name" := VStr (strip task_name)]>
    (<["priority" := VStr (priority_label p)]>
       (<["due" := VStr (isoformat due_date)]>
          (<["status" := VStr (py "Pending")]> ∅))).

(** The [Add task] button. *)
Definition add_task (task_name : str) (p : priority) (due_date : date)
    (data : store) : result outcome :=
  if bool_decide (strip task_name = []) then
    Ok (Warning "Please enter a task name.")
  else
    tasks <- getitem data "tasks" ;;
    Ok (Rerun (<["tasks" := tasks ++ [new_task task_name p due_date]]> data)).

(** The [Mark Done] button of the task at index [i]. *)
Definition mark_done (i : nat) (data : store) : result outcome :=
  tasks <- getitem data "tasks" ;;
  t <- list_getitem tasks i ;;
  Ok (Rerun (<["tasks" := <[i := <["status" := VStr (py "Completed")]> t]> tasks]> data)).

(** The dictionary [Save changes] passes to [dict.update]. *)
Definition task_changes (new_name : str) (new_priority : priority)
    (new_due : date) (new_status : status) : record :=
  <["name" := VStr (strip new_name)]>
    (<["priority" := VStr (priority_label new_priority)]>
       (<["due" := VStr (isoformat new_due)]>
          (<["status" := VStr (status_label new_status)]> ∅))).

(** The [Save changes] button of the task at index [i]: [dict.update]
    overwrites the four keys and keeps any other key of the task. *)
Definition update_task (i : nat) (new_name : str) (new_priority : priority)
    (new_due : date) (new_status : status) (data : store) : result outcome :=
  tasks <- getitem data "tasks" ;;
  t <- list_getitem tasks i ;;
  Ok (Rerun (<["tasks" :=
               <[i := task_changes new_name new_priority new_due new_status ∪ t]> tasks]> data)).

(** The [Delete] button of the task at index [i]. *)
Definition delete_task (i : nat) (data : store) : result outcome :=
  tasks <- getitem data "tasks" ;;
  tasks' <- pop tasks i ;;
  Ok (Rerun (<["tasks" := tasks']> data)).

(** [d.setdefault(k, [])]: the list under [k], an empty one when [k] is
    absent; the handlers below append to it and so store it under [k]. *)
Definition setdefault (data : store) (k : string) : list record :=
  default [] (data !! k).

(** The record [Save note] appends. *)
Definition new_note (note_title note_body : str) (today : date) : record :=
  <["title" := VStr (strip note_title)]>
    (<["content" := VStr (strip note_body)]>
       (<["date" := VStr (isoformat today)]> ∅)).

(** The [Save note] button. *)
Definition add_note (note_title note_body : str) (today : date)
    (data : store) : result outcome :=
  if bool_decide (strip note_title = []) || bool_decide (strip note_body = []) then
    Ok (Warning "Please provide both a title and content for the note.")
  else
    Ok (Rerun (<["notes" := setdefault data "notes" ++ [new_note note_title note_body today]]> data)).

(** The rows of the notes section: [enumerate(reversed(data["notes"]))],
    each row with the index [idx = len(data["notes"]) - 1 - j] its button
    carries. *)
Definition notes_rows (notes : list record) : list (nat * record) :=
  imap (fun j n => (length notes - 1 - j, n)) (reverse notes).

(** The [Delete Note] button carrying the index [idx]. *)
Definition delete_note (idx : nat) (data : store) : result outcome :=
  notes <- getitem data "notes" ;;
  notes' <- pop notes idx ;;
  Ok (Rerun (<["notes" := notes']> data)).

(** The record [Add habit] appends. *)
Definition new_habit (habit_name : str) : record :=
  <["name" := VStr (strip habit_name)]> (<["streak" := VInt 0]> ∅).

(** The [Add habit] button. *)
Definition add_habit (habit_name : str) (data : store) : result outcome :=
  if bool_decide (strip habit_name = []) then
    Ok (Warning "Enter a habit name.")
  else
    Ok (Rerun (<["habits" := setdefault data "habits" ++ [new_habit habit_name]]> data)).

(** The [Mark today] button of the habit at index [h_idx]. *)
Definition mark_habit_today (h_idx : nat) (data : store) : result outcome :=
  habits <- getitem data "habits" ;;
  h <- list_getitem habits h_idx ;;
  streak <- py_add (default (VInt 0) (h !! "streak")) (VInt 1) ;;
  Ok (Rerun (<["habits" := <[h_idx := <["streak" := streak]> h]> habits]> data)).

(** The record [Log mood] appends. *)
Definition new_mood_entry (m : mood) (today : date) : record :=
  <["date" := VStr (isoformat today)]> (<["mood" := VStr (mood_label m)]> ∅).

(** The [Log mood] button. *)
Definition log_mood (m : mood) (today : date) (data : store) : result outcome :=
  Ok (Rerun (<["mood_log" := setdefault data "mood_log" ++ [new_mood_entry m today]]> data)).

(** The [Reset all data] button of the sidebar (it saves and does not
    rerun; the rest of the script goes on with the empty store). *)
Definition reset_all (data : store) : result outcome :=
  Ok (Rerun empty_store).

(** ** What the script shows *)

(** The values interpolated in the expander of one task: [t['name']],
    [t.get("status", "Pending")], [t.get('priority', '-')] and
    [t.get('due', '-')]. *)
Record task_row : Type := TaskRow {
  shown_name : value;
  shown_status : value;
  shown_priority : value;
  shown_due : value
}.

Definition task_view (t : record) : result task_row :=
  name <- getitem t "name" ;;
  Ok (TaskRow name
        (default (VStr (py "Pending")) (t !! "status"))
        (default (VStr (py "-")) (t !! "priority"))
        (default (VStr (py "-")) (t !! "due"))).

(** The line of one habit: [h['name']] and [h['streak']]. *)
Definition habit_view (h : record) : result (value * value) :=
  name <- getitem h "name" ;;
  streak <- getitem h "streak" ;;
  Ok (name, streak).

(** [t.get("status") == "Completed"]. *)
Definition is_completed (t : record) : bool :=
  bool_decide (t !! "status" = Some (VStr (py "Completed"))).

(** The snapshot at the end of the script. *)
Record summary : Type := Summary {
  total_tasks : Z;
  completed : Z;
  pending : Z;
  total_notes : Z;
  total_habits : Z
}.

(** [len(data.get(k, []))]. *)
Definition len_of (data : store) (k : string) : Z :=
  Z.of_nat (length (default [] (data !! k))).

Definition count_completed (tasks : list record) : Z :=
  Z.of_nat (length (filter (fun t => is_completed t = true) tasks)).

Definition get_summary (data : store) : summary :=
  let total := len_of data "tasks" in
  let done := count_completed (default [] (data !! "tasks")) in
  Summary total done (total - done)%Z (len_of data "notes") (len_of data "habits").

(** [{mood_options[i]: i+1 for i in range(len(mood_options))}]. *)
Definition mapping : gmap (list N) Z :=
  foldl (fun m i => <[default [] (mood_options !! i) := (Z.of_nat i + 1)%Z]> m) ∅
        (seq 0 (length mood_options)).

(** The score of one entry, [df_mood["mood"].map(mapping)]: [None] stands
    for the [NaN] of a label outside the mapping or of a missing cell. *)
Definition score (r : record) : option Z :=
  match r !! "mood" with
  | Some (VStr label) => mapping !! label
  | _ => None
  end.

(** The rows of [df_mood], read at the columns [date] and [score], in the
    order of the list the frame is built from.  [df_mood["mood"]] raises
    [KeyError] when no entry has a [mood] key. *)
Definition mood_series (mood_log : list record) : result (list (option value * option Z)) :=
  if bool_decide (Exists (fun r => is_Some (r !! "mood")) mood_log) then
    Ok ((fun r => (r !! "date", score r)) <$> mood_log)
  else Raise KeyError.

(** ** Sessions *)

(** One click of the user. *)
Inductive action : Type :=
  | AddTask (task_name : str) (p : priority) (due_date : date)
  | MarkDone (i : nat)
  | UpdateTask (i : nat) (new_name : str) (new_priority : priority)
               (new_due : date) (new_status : status)
  | DeleteTask (i : nat)
  | AddNote (note_title note_body : str) (today : date)
  | DeleteNote (idx : nat)
  | AddHabit (habit_name : str)
  | MarkHabitToday (h_idx : nat)
  | LogMood (m : mood) (today : date)
  | ResetAll.

Definition handle (a : action) (data : store) : result outcome :=
  match a with
  | AddTask n p d => add_task n p d data
  | MarkDone i => mark_done i data
  | UpdateTask i n p d s => update_task i n p d s data
  | DeleteTask i => delete_task i data
  | AddNote t b d => add_note t b d data
  | DeleteNote idx => delete_note idx data
  | AddHabit n => add_habit n data
  | MarkHabitToday i => mark_habit_today i data
  | LogMood m d => log_mood m d data
  | ResetAll => reset_all data
  end.

(** [data] after a handler ran. *)
Definition after (o : outcome) (data : store) : store :=
  match o with
  | Rerun d => d
  | Warning _ => data
  end.

(** A sequence of clicks, each on the store the previous one left. *)
Fixpoint run (acts : list action) (data : store) : result store :=
  match acts with
  | [] => Ok data
  | a :: rest => o <- handle a data ;; run rest (after o data)
  end.

(** The stores a session can reach from the empty store. *)
Definition reachable (data : store) : Prop :=
  exists acts, run acts empty_store = Ok data.


(** ** The data file *)

(** The contents of a file. *)
Abbreviation bytes := (list Byte.byte).

Section DataFile.

(** [pickle.dump] and [pickle.load], the library calls of [save_data] and
    [load_data]: the bytes of a store, and the store read back from bytes
    or the exception raised on bytes that do not unpickle. *)
Variable pickle_dump : store -> bytes.
Variable pickle_load : bytes -> result store.

(** [DATA_FILE] is [None] when [os.path.exists(DATA_FILE)] is false and
    holds the contents of the file otherwise. *)
Definition load_data (data_file : option bytes) : result store :=
  match data_file with
  | Some contents =>
      try_except (pickle_load contents) (fun _ => Ok empty_store)
  | None => Ok empty_store
  end.

(** [open(DATA_FILE, "wb")] truncates the file; the dump is all it holds
    afterwards. *)
Definition save_data (data : store) (data_file : option bytes) : option bytes :=
  Some (pickle_dump data).

(** One run of the script for one click: [data = load_data()] at the top,
    the handler of the click, and the dump of [data] that follows every
    handler (in the handler before its rerun, and on the last line of the
    script otherwise).  An exception leaves the file as it was. *)
Definition script_run (a : action) (data_file : option bytes) : result (option bytes) :=
  data <- load_data data_file ;;
  o <- handle a data ;;
  Ok (save_data (after o data) data_file).

End DataFile.

(** A serialisation of stores, to instantiate the two library calls: the
    store is numbered by its [Countable] instance and the number is written
    in binary, one byte per bit. *)
Fixpoint bits_of_positive (p : positive) : bytes :=
  match p with
  | xH => []
  | xO q => Byte.x30 :: bits_of_positive q
  | xI q => Byte.x31 :: bits_of_positive q
  end.

Fixpoint positive_of_bits (bs : bytes) : option positive :=
  match bs with
  | [] => Some xH
  | b :: rest =>
      match positive_of_bits rest with
      | Some q =>
          if Byte.eqb b Byte.x30 then Some (xO q)
          else if Byte.eqb b Byte.x31 then Some (xI q)
          else None
      | None => None
      end
  end.

Definition binary_dump (data : store) : bytes := bits_of_positive (encode data).

Definition binary_load (contents : bytes) : result store :=
  match positive_of_bits contents with
  | Some p =>
      match decode p with
      | Some data => Ok data
      | None => Raise UnpicklingError
      end
  | None => Raise UnpicklingError
  end.

(** ** Trimmed stores *)

(** A value with no whitespace at either end, when it is a string. *)
Definition value_trimmed (v : value) : Prop :=
  match v with
  | VStr s => trimmed s
  | VInt _ => True
  end.

(** Every string field of the record is trimmed. *)
Definition record_trimmed (r : record) : Prop :=
  map_Forall (fun _ v => value_trimmed v) r.

(** Every string field of every record of every list is trimmed. *)
Definition store_trimmed (data : store) : Prop :=
  map_Forall (fun _ l => Forall record_trimmed l) data.

(** ** Sample data *)

(** A store holding one pending task. *)
Definition milk_task : record := new_task (py "Buy milk") Low (Date 2024 3 9).

Definition milk_store : store := <["tasks" := [milk_task]]> empty_store.

(** ** The sections of the page *)

(** A [for] loop whose body may raise: the results of the iterations that
    ran, or the first exception. *)
Fixpoint for_each {A B} (f : A -> result B) (l : list A) : result (list B) :=
  match l with
  | [] => Ok []
  | x :: rest => y <- f x ;; ys <- for_each f rest ;; Ok (y :: ys)
  end.

(** A section guarded by [if data.get(k):] shows its rows when the list
    under [k] is there and not empty, and an [st.info] message, here
    [None], otherwise. *)
Definition section_of {B} (data : store) (k : string)
    (rows : list record -> result B) : result (option B) :=
  match default [] (data !! k) with
  | [] => Ok None
  | l => r <- rows l ;; Ok (Some r)
  end.

(** The tasks section: one expander per task, in list order. *)
Definition tasks_section (data : store) : result (option (list task_row)) :=
  section_of data "tasks" (for_each task_view).

(** The expander of one note: [n['title']], [n['date']] and
    [n["content"]]. *)
Definition note_view (n : record) : result (value * value * value) :=
  title <- getitem n "title" ;;
  created <- getitem n "date" ;;
  content <- getitem n "content" ;;
  Ok (title, created, content).

(** The notes section: one expander per row of [notes_rows], each with the
    index its delete button carries. *)
Definition notes_section (data : store)
    : result (option (list (nat * (value * value * value)))) :=
  section_of data "notes"
    (fun notes => for_each (fun row => v <- note_view row.2 ;; Ok (row.1, v))
                    (notes_rows notes)).

(** The habits section: one line per habit. *)
Definition habits_section (data : store) : result (option (list (value * value))) :=
  section_of data "habits" (for_each habit_view).

(** The mood section: the frame behind the chart. *)
Definition mood_section (data : store)
    : result (option (list (option value * option Z))) :=
  section_of data "mood_log" mood_series.

(** ** Sessions on the data file *)

Section DiskSession.

Variable pickle_dump : store -> bytes.
Variable pickle_load : bytes -> result store.

(** Clicks one after the other, each a run of the script on the file the
    previous run left; the session ends at the first run that raises. *)
Fixpoint disk_session (acts : list action) (data_file : option bytes)
    : result (option bytes) :=
  match acts with
  | [] => Ok data_file
  | a :: rest =>
      f <- script_run pickle_dump pickle_load a data_file ;;
      disk_session rest f
  end.

End DiskSession.

(** ** Well-formed stores *)

(** The list a click writes to ([Reset all data] writes all four). *)
Definition list_of (a : action) : string :=
  match a with
  | AddTask _ _ _ | MarkDone _ | UpdateTask _ _ _ _ _ | DeleteTask _ => "tasks"
  | AddNote _ _ _ | DeleteNote _ => "notes"
  | AddHabit _ | MarkHabitToday _ => "habits"
  | LogMood _ _ => "mood_log"
  | ResetAll => ""
  end.

(** The index a click carries, when it carries one. *)
Definition index_of (a : action) : option nat :=
  match a with
  | MarkDone i | UpdateTask i _ _ _ _ | DeleteTask i => Some i
  | DeleteNote idx => Some idx
  | MarkHabitToday h_idx => Some h_idx
  | _ => None
  end.

(** A task with a name. *)
Definition task_wf (t : record) : Prop := is_Some (t !! "name").

(** A note with a title, a date and a content. *)
Definition note_wf (n : record) : Prop :=
  is_Some (n !! "title") /\ is_Some (n !! "date") /\ is_Some (n !! "content").

(** A habit with a name and a streak that is a non-negative integer. *)
Definition habit_wf (h : record) : Prop :=
  is_Some (h !! "name") /\ exists n : Z, h !! "streak" = Some (VInt n) /\ (0 <= n)%Z.

(** A mood entry with a date and one of the five labels. *)
Definition mood_wf (r : record) : Prop :=
  (exists d : date, r !! "date" = Some (VStr (isoformat d))) /\
  (exists m : mood, r !! "mood" = Some (VStr (mood_label m))).

(** A store with its four lists, each of well-formed records. *)
Definition store_wf (data : store) : Prop :=
  exists tasks notes habits mood_log : list record,
    data !! "tasks" = Some tasks /\ Forall task_wf tasks /\
    data !! "notes" = Some notes /\ Forall note_wf notes /\
    data !! "habits" = Some habits /\ Forall habit_wf habits /\
    data !! "mood_log" = Some mood_log /\ Forall mood_wf mood_log.

(** A point of the mood chart with an ISO date and a score from 1 to 5. *)
Definition chart_point (p : option value * option Z) : Prop :=
  exists (d : date) (z : Z),
    p = (Some (VStr (isoformat d)), Some z) /\ (1 <= z <= 5)%Z.

(** A string of whitespace only, which [str.strip] empties. *)
Definition blank (s : str) : Prop := Forall (fun c => isspace c = true) s.

(** A session that touches every list: two tasks, one of them marked done
    and then edited, a note, a habit marked twice and two moods. *)
Definition sample_clicks : list action :=
  [AddTask (py " buy milk ") High (Date 2024 3 9);
   AddTask (py "call home") Low (Date 2024 3 10);
   MarkDone 0;
   UpdateTask 0 (py "buy oat milk") Medium (Date 2024 3 11) Pending;
   AddNote (py " list ") (py " eggs, flour ") (Date 2024 3 9);
   AddHabit (py "run");
   MarkHabitToday 0;
   MarkHabitToday 0;
   LogMood Sad (Date 2024 3 9);
   LogMood Great (Date 2024 3 9)].

(** * Properties *)

(** Closed goals over concrete stores are settled by evaluation. *)
Ltac by_eval := vm_compute; first [reflexivity | discriminate].

(** ** Worked examples *)

Example isoformat_example :
  isoformat (Date 2024 3 9) = py "2024-03-09".
Proof. reflexivity. Qed.

Example strip_example :
  strip (py "  buy milk " ++ [0x3000%N]) = py "buy milk".
Proof. reflexivity. Qed.

Example mapping_example :
  (fun m => mapping !! mood_label m) <$> [Sad; Meh; Good; Great; Awesome]
  = [Some 1; Some 2; Some 3; Some 4; Some 5]%Z.
Proof. vm_compute. reflexivity. Qed.

Example delete_task_out_of_range :
  delete_task 3 milk_store = Raise IndexError.
Proof. reflexivity. Qed.

(** ** [str.strip] *)

Lemma lstrip_suffix (s : str) : exists p, s = p ++ lstrip s.
Proof.
  induction s as [|c r [p Hp]]; simpl.
  - exists []. reflexivity.
  - destruct (isspace c).
    + exists (c :: p). simpl. congruence.
    + exists []. reflexivity.
Qed.

Lemma lstrip_head (s : str) (c : N) :
  head (lstrip s) = Some c -> isspace c = false.
Proof.
  induction s as [|d r IH]; simpl; [discriminate|].
  destruct (isspace d) eqn:Hd; [exact IH|].
  simpl. intros [= <-]. exact Hd.
Qed.

Lemma lstrip_id (s : str) :
  (forall c, head s = Some c -> isspace c = false) -> lstrip s = s.
Proof.
  destruct s as [|c r]; simpl; [reflexivity|].
  intros H. rewrite (H c eq_refl). reflexivity.
Qed.

Lemma rstrip_prefix (s : str) : exists t, s = rstrip s ++ t.
Proof.
  unfold rstrip. destruct (lstrip_suffix (reverse s)) as [p Hp].
  exists (reverse p).
  rewrite <- reverse_app, <- Hp, reverse_involutive. reflexivity.
Qed.

Lemma rstrip_last (s : str) (c : N) :
  last (rstrip s) = Some c -> isspace c = false.
Proof.
  unfold rstrip. rewrite last_reverse. apply lstrip_head.
Qed.

Lemma rstrip_id (s : str) :
  (forall c, last s = Some c -> isspace c = false) -> rstrip s = s.
Proof.
  intros H. unfold rstrip. rewrite lstrip_id.
  - apply reverse_involutive.
  - intros c Hc. apply H. rewrite <- head_reverse. exact Hc.
Qed.

Lemma strip_trimmed (s : str) : trimmed (strip s).
Proof.
  unfold strip. split; intros c Hc.
  - destruct (rstrip_prefix (lstrip s)) as [t Ht].
    apply (lstrip_head s). rewrite Ht.
    destruct (rstrip (lstrip s)); [discriminate|exact Hc].
  - exact (rstrip_last _ _ Hc).
Qed.

Lemma trimmed_strip (s : str) : trimmed s -> strip s = s.
Proof.
  intros [Hh Hl]. unfold strip. rewrite (lstrip_id s Hh). apply rstrip_id, Hl.
Qed.

Lemma strip_idempotent (s : str) : strip (strip s) = strip s.
Proof. apply trimmed_strip, strip_trimmed. Qed.

(** ** The snapshot *)

Lemma count_completed_app (l1 l2 : list record) :
  count_completed (l1 ++ l2) = (count_completed l1 + count_completed l2)%Z.
Proof.
  unfold count_completed. rewrite filter_app, length_app. lia.
Qed.

Lemma count_completed_cons (t : record) (l : list record) :
  count_completed (t :: l)
  = ((if is_completed t then 1 else 0) + count_completed l)%Z.
Proof.
  unfold count_completed. destruct (is_completed t) eqn:Ht.
  - rewrite filter_cons_True by exact Ht. simpl. lia.
  - rewrite filter_cons_False by congruence. lia.
Qed.

Lemma count_completed_bounds (l : list record) :
  (0 <= count_completed l <= Z.of_nat (length l))%Z.
Proof.
  unfold count_completed. pose proof (length_filter (fun t => is_completed t = true) l). lia.
Qed.

Lemma pending_tasks (data : store) (tasks : list record) :
  data !! "tasks" = Some tasks ->
  pending (get_summary data) = (Z.of_nat (length tasks) - count_completed tasks)%Z.
Proof.
  intros H. unfold get_summary, len_of. simpl. rewrite H. reflexivity.
Qed.

(** ** Tasks *)

Lemma new_task_fields (task_name : str) (p : priority) (due_date : date) (k : string) :
  new_task task_name p due_date !! k =
    if decide (k = "name") then Some (VStr (strip task_name))
    else if decide (k = "priority") then Some (VStr (priority_label p))
    else if decide (k = "due") then Some (VStr (isoformat due_date))
    else if decide (k = "status") then Some (VStr (py "Pending"))
    else None.
Proof.
  unfold new_task.
  repeat (case_decide; [subst k; simplify_map_eq; reflexivity|]).
  simplify_map_eq. reflexivity.
Qed.

Lemma new_task_not_completed (task_name : str) (p : priority) (due_date : date) :
  is_completed (new_task task_name p due_date) = false.
Proof.
  unfold is_completed. rewrite new_task_fields. reflexivity.
Qed.

(** [Add task] reads [data['tasks']] with no default (the other create
    handlers use [setdefault]): on a store without that key it raises. *)
Lemma add_task_no_list (task_name : str) (p : priority) (due_date : date) (data : store) :
  strip task_name <> [] ->
  data !! "tasks" = None ->
  add_task task_name p due_date data = Raise KeyError.
Proof.
  intros Hname Hnone. unfold add_task, getitem.
  rewrite bool_decide_eq_false_2 by exact Hname. rewrite Hnone. reflexivity.
Qed.

(** C1. With a name that is not empty once stripped, a priority of the
    select box and a date, [add_task] appends exactly one task at the end of
    the task list: its name is the stripped name, its priority and due date
    are the given ones (the date in ISO format), its status is [Pending] and
    it has no other field.  The tasks already there keep their places, every
    other list of the store is unchanged, and the pending count of the
    snapshot (total minus completed) grows by exactly 1. *)
Theorem add_task_appends_pending
    (task_name : str) (p : priority) (due_date : date)
    (data : store) (tasks : list record) :
  strip task_name <> [] ->
  data !! "tasks" = Some tasks ->
  exists data' : store,
    add_task task_name p due_date data = Ok (Rerun data') /\
    data' !! "tasks" = Some (tasks ++ [new_task task_name p due_date]) /\
    (forall k : string,
        new_task task_name p due_date !! k =
          if decide (k = "name") then Some (VStr (strip task_name))
          else if decide (k = "priority") then Some (VStr (priority_label p))
          else if decide (k = "due") then Some (VStr (isoformat due_date))
          else if decide (k = "status") then Some (VStr (status_label Pending))
          else None) /\
    (forall (i : nat) (t : record),
        tasks !! i = Some t ->
        (tasks ++ [new_task task_name p due_date]) !! i = Some t) /\
    length (tasks ++ [new_task task_name p due_date]) = S (length tasks) /\
    (forall k : string, k <> "tasks" -> data' !! k = data !! k) /\
    pending (get_summary data') = (pending (get_summary data) + 1)%Z.
Proof.
  intros Hname Htasks.
  exists (<["tasks" := tasks ++ [new_task task_name p due_date]]> data).
  split; [|split; [|split; [|split; [|split; [|split]]]]].
  - unfold add_task. rewrite bool_decide_eq_false_2 by exact Hname.
    unfold getitem. rewrite Htasks. reflexivity.
  - apply lookup_insert_eq.
  - apply new_task_fields.
  - intros i t Hi. apply lookup_app_l_Some. exact Hi.
  - rewrite length_app. simpl. lia.
  - intros k Hk. apply lookup_insert_ne. congruence.
  - rewrite (pending_tasks _ _ (lookup_insert_eq data "tasks" _)).
    rewrite (pending_tasks _ _ Htasks).
    rewrite count_completed_app, count_completed_cons, new_task_not_completed.
    rewrite length_app. unfold count_completed at 2. simpl. lia.
Qed.

(** The first task of a fresh store: [" buy milk "], high priority, due on
    9 March 2024. *)
Lemma add_task_appends_pending_witness :
  strip (py " buy milk ") <> [] /\
  empty_store !! "tasks" = Some [] /\
  exists data' : store,
    add_task (py " buy milk ") High (Date 2024 3 9) empty_store = Ok (Rerun data') /\
    data' !! "tasks" = Some [new_task (py " buy milk ") High (Date 2024 3 9)] /\
    pending (get_summary data') = 1%Z.
Proof.
  assert (H1 : strip (py " buy milk ") <> []) by by_eval.
  assert (H2 : empty_store !! "tasks" = Some []) by reflexivity.
  split; [exact H1|]. split; [exact H2|].
  destruct (add_task_appends_pending (py " buy milk ") High (Date 2024 3 9)
              empty_store [] H1 H2) as (data' & Hrun & Htasks & _ & _ & _ & _ & Hpending).
  exists data'. split; [exact Hrun|]. split; [exact Htasks|].
  rewrite Hpending. reflexivity.
Defined.

(** ** The data file *)

Lemma empty_store_lists (k : string) :
  empty_store !! k =
    if decide (k ∈ ["tasks"; "notes"; "habits"; "mood_log"]) then Some [] else None.
Proof.
  unfold empty_store. case_decide as Hk.
  - repeat (apply elem_of_cons in Hk as [->|Hk]; [reflexivity|]).
    apply elem_of_nil in Hk. contradiction.
  - rewrite !lookup_insert_ne, lookup_empty; [reflexivity|..];
      intros <-; apply Hk; set_solver.
Qed.

Lemma positive_of_bits_of_positive (p : positive) :
  positive_of_bits (bits_of_positive p) = Some p.
Proof.
  induction p as [q IH|q IH|]; simpl; [rewrite IH..|]; reflexivity.
Qed.

Lemma binary_load_dump (data : store) : binary_load (binary_dump data) = Ok data.
Proof.
  unfold binary_load, binary_dump.
  rewrite positive_of_bits_of_positive, decode_encode. reflexivity.
Qed.



(** On a file the script wrote, a run of the script is the handler on the
    store that was saved, followed by the dump of the store it leaves. *)
Lemma script_run_saved
    (pickle_dump : store -> bytes) (pickle_load : bytes -> result store)
    (a : action) (data : store) (data_file : option bytes) :
  (forall d : store, pickle_load (pickle_dump d) = Ok d) ->
  script_run pickle_dump pickle_load a (save_data pickle_dump data data_file)
  = (o <- handle a data ;; Ok (Some (pickle_dump (after o data)))).
Proof.
  intros Hpickle. unfold script_run, save_data, load_data.
  rewrite Hpickle. reflexivity.
Qed.

(** C4. Whenever [pickle.load] reads back what [pickle.dump] wrote, saving
    a store [S] and then loading yields [S] itself, whatever the data file
    held before; equality of stores is equality of dictionaries, which does
    not depend on the order of the keys. *)
Theorem save_load_roundtrip
    (pickle_dump : store -> bytes) (pickle_load : bytes -> result store) :
  (forall data : store, pickle_load (pickle_dump data) = Ok data) ->
  forall (S : store) (data_file : option bytes),
    load_data pickle_load (save_data pickle_dump S data_file) = Ok S.
Proof.
  intros Hpickle S data_file. unfold save_data, load_data.
  rewrite Hpickle. reflexivity.
Qed.

(** The round trip of a store with one task through the binary format,
    over a data file that was absent. *)
Lemma save_load_roundtrip_witness :
  load_data binary_load
    (save_data binary_dump
       (<["tasks" := [new_task (py "buy milk") Low (Date 2024 3 9)]]> empty_store) None)
  = Ok (<["tasks" := [new_task (py "buy milk") Low (Date 2024 3 9)]]> empty_store).
Proof.
  exact (save_load_roundtrip binary_dump binary_load binary_load_dump
           (<["tasks" := [new_task (py "buy milk") Low (Date 2024 3 9)]]> empty_store) None).
Defined.

(** ** Editing and deleting tasks *)

Lemma update_task_in_range
    (i : nat) (new_name : str) (new_priority : priority) (new_due : date)
    (new_status : status) (data : store) (tasks : list record) (t : record) :
  data !! "tasks" = Some tasks ->
  tasks !! i = Some t ->
  update_task i new_name new_priority new_due new_status data
  = Ok (Rerun (<["tasks" :=
                 <[i := task_changes new_name new_priority new_due new_status ∪ t]> tasks]> data)).
Proof.
  intros Htasks Ht. unfold update_task, getitem, list_getitem.
  rewrite Htasks. simpl. rewrite Ht. reflexivity.
Qed.


Lemma delete_task_in_range (i : nat) (data : store) (tasks : list record) :
  data !! "tasks" = Some tasks ->
  i < length tasks ->
  delete_task i data = Ok (Rerun (<["tasks" := delete i tasks]> data)).
Proof.
  intros Htasks Hi. apply lookup_lt_is_Some_2 in Hi as [t Ht].
  unfold delete_task, getitem, pop. rewrite Htasks. simpl. rewrite Ht. reflexivity.
Qed.

(** C5. For an index [i] within the task list, [Delete] pops exactly the
    task at [i]: the tasks before [i] keep their index, every task that was
    at an index [k > i] is now at [k - 1], the list is shorter by exactly
    one, and the other lists of the store are unchanged. *)
Theorem delete_task_shifts (i : nat) (data : store) (tasks : list record) :
  data !! "tasks" = Some tasks ->
  i < length tasks ->
  exists tasks' : list record,
    delete_task i data = Ok (Rerun (<["tasks" := tasks']> data)) /\
    S (length tasks') = length tasks /\
    (forall j : nat, j < i -> tasks' !! j = tasks !! j) /\
    (forall k : nat, i < k -> tasks' !! (k - 1) = tasks !! k) /\
    tasks = take i tasks' ++ default ∅ (tasks !! i) :: drop i tasks'.
Proof.
  intros Htasks Hi. exists (delete i tasks).
  split; [exact (delete_task_in_range i data tasks Htasks Hi)|].
  pose proof (lookup_lt_is_Some_2 _ _ Hi) as Hsome.
  split; [rewrite length_delete by exact Hsome; lia|].
  split; [intros j Hj; apply list_lookup_delete_lt; exact Hj|].
  split.
  - intros k Hk. rewrite list_lookup_delete_ge by lia. f_equal. lia.
  - destruct Hsome as [t Ht]. rewrite Ht. simpl.
    rewrite delete_take_drop.
    rewrite take_app_length' by (rewrite length_take; lia).
    rewrite drop_app_length' by (rewrite length_take; lia).
    rewrite <- (take_drop_middle tasks i t Ht) at 1. reflexivity.
Qed.

(** Deleting the middle one of three tasks. *)
Lemma delete_task_shifts_witness :
  exists tasks' : list record,
    delete_task 1 (<["tasks" := [new_task (py "a") Low (Date 2024 3 9);
                                 new_task (py "b") High (Date 2024 3 10);
                                 new_task (py "c") Medium (Date 2024 3 11)]]> empty_store)
    = Ok (Rerun (<["tasks" := tasks']>
                   (<["tasks" := [new_task (py "a") Low (Date 2024 3 9);
                                  new_task (py "b") High (Date 2024 3 10);
                                  new_task (py "c") Medium (Date 2024 3 11)]]> empty_store))) /\
    tasks' = [new_task (py "a") Low (Date 2024 3 9);
              new_task (py "c") Medium (Date 2024 3 11)].
Proof.
  destruct (delete_task_shifts 1
              (<["tasks" := [new_task (py "a") Low (Date 2024 3 9);
                             new_task (py "b") High (Date 2024 3 10);
                             new_task (py "c") Medium (Date 2024 3 11)]]> empty_store)
              [new_task (py "a") Low (Date 2024 3 9);
               new_task (py "b") High (Date 2024 3 10);
               new_task (py "c") Medium (Date 2024 3 11)])
    as (tasks' & Hrun & _ & Hlt & Hgt & _).
  - apply lookup_insert_eq.
  - simpl. lia.
  - exists tasks'. split; [exact Hrun|].
    pose proof (Hlt 0 ltac:(lia)) as H0.
    pose proof (Hgt 2 ltac:(lia)) as H1.
    pose proof (Hgt 3 ltac:(lia)) as H2.
    simpl in H0, H1, H2.
    destruct tasks' as [|x [|y [|z r]]]; simpl in *; try discriminate.
    congruence.
Defined.

(** ** Notes *)

Lemma notes_rows_notes (notes : list record) :
  snd <$> notes_rows notes = reverse notes.
Proof.
  apply list_eq. intros j. unfold notes_rows.
  rewrite list_lookup_fmap, list_lookup_imap.
  destruct (reverse notes !! j); reflexivity.
Qed.

Lemma notes_rows_lookup (notes : list record) (j idx : nat) (n : record) :
  notes_rows notes !! j = Some (idx, n) ->
  idx = length notes - 1 - j /\ j < length notes /\ notes !! idx = Some n.
Proof.
  unfold notes_rows. rewrite list_lookup_imap_Some.
  intros (y & Hy & [= -> ->]).
  apply reverse_lookup_Some in Hy as [Hy Hj].
  split; [reflexivity|]. split; [exact Hj|].
  replace (length notes - 1 - j) with (length notes - S j) by lia. exact Hy.
Qed.

Lemma delete_note_in_range (idx : nat) (data : store) (notes : list record) :
  data !! "notes" = Some notes ->
  idx < length notes ->
  delete_note idx data = Ok (Rerun (<["notes" := delete idx notes]> data)).
Proof.
  intros Hnotes Hi. apply lookup_lt_is_Some_2 in Hi as [t Ht].
  unfold delete_note, getitem, pop. rewrite Hnotes. simpl. rewrite Ht. reflexivity.
Qed.

Lemma add_note_valid (note_title note_body : str) (today : date) (data : store) :
  strip note_title <> [] ->
  strip note_body <> [] ->
  add_note note_title note_body today data
  = Ok (Rerun (<["notes" := setdefault data "notes" ++ [new_note note_title note_body today]]> data)).
Proof.
  intros Ht Hb. unfold add_note.
  rewrite !bool_decide_eq_false_2 by assumption. reflexivity.
Qed.

(** C6. The notes section lists the notes in reverse creation order, the
    most recent first.  The button of the row at display position [j]
    carries the index [len - 1 - j], which is the place of the displayed
    note in the underlying list, and clicking it pops exactly that note.
    So a note just added is shown at position 0 with the index of the last
    place, and deleting it there gives back the store as it was before. *)
Theorem notes_display_and_delete (data : store) (notes : list record) :
  data !! "notes" = Some notes ->
  snd <$> notes_rows notes = reverse notes /\
  (forall (j idx : nat) (n : record),
      notes_rows notes !! j = Some (idx, n) ->
      idx = length notes - 1 - j /\
      notes !! idx = Some n /\
      delete_note idx data = Ok (Rerun (<["notes" := delete idx notes]> data)) /\
      notes = take idx (delete idx notes) ++ n :: drop idx (delete idx notes)) /\
  (forall (note_title note_body : str) (today : date),
      strip note_title <> [] ->
      strip note_body <> [] ->
      exists data1 : store,
        add_note note_title note_body today data = Ok (Rerun data1) /\
        data1 !! "notes" = Some (notes ++ [new_note note_title note_body today]) /\
        notes_rows (notes ++ [new_note note_title note_body today]) !! 0
        = Some (length notes, new_note note_title note_body today) /\
        delete_note (length notes) data1 = Ok (Rerun data)).
Proof.
  intros Hnotes. split; [apply notes_rows_notes|]. split.
  - intros j idx n Hrow.
    destruct (notes_rows_lookup notes j idx n Hrow) as (Hidx & Hj & Hn).
    split; [exact Hidx|]. split; [exact Hn|].
    assert (Hlt : idx < length notes) by lia.
    split; [exact (delete_note_in_range idx data notes Hnotes Hlt)|].
    rewrite delete_take_drop.
    rewrite take_app_length' by (rewrite length_take; lia).
    rewrite drop_app_length' by (rewrite length_take; lia).
    symmetry. apply take_drop_middle. exact Hn.
  - intros note_title note_body today Ht Hb.
    set (n := new_note note_title note_body today).
    exists (<["notes" := notes ++ [n]]> data).
    split.
    { rewrite (add_note_valid _ _ _ _ Ht Hb). unfold setdefault.
      rewrite Hnotes. reflexivity. }
    split; [apply lookup_insert_eq|]. split.
    { unfold notes_rows. rewrite reverse_snoc. simpl.
      rewrite length_app. simpl. do 2 f_equal. lia. }
    rewrite (delete_note_in_range (length notes) _ (notes ++ [n]))
      by (rewrite ?lookup_insert_eq, ?length_app; simpl; (reflexivity || lia)).
    rewrite delete_middle, app_nil_r, insert_insert_eq.
    rewrite (insert_id data "notes" notes Hnotes). reflexivity.
Qed.

(** Two notes, a third one added and deleted at the top of the display. *)
Lemma notes_display_and_delete_witness :
  notes_rows [new_note (py "first") (py "one") (Date 2024 3 9);
              new_note (py "second") (py "two") (Date 2024 3 10)]
  = [(1, new_note (py "second") (py "two") (Date 2024 3 10));
     (0, new_note (py "first") (py "one") (Date 2024 3 9))] /\
  exists data1 : store,
    add_note (py "third") (py "three") (Date 2024 3 11)
      (<["notes" := [new_note (py "first") (py "one") (Date 2024 3 9);
                     new_note (py "second") (py "two") (Date 2024 3 10)]]> empty_store)
    = Ok (Rerun data1) /\
    delete_note 2 data1
    = Ok (Rerun (<["notes" := [new_note (py "first") (py "one") (Date 2024 3 9);
                               new_note (py "second") (py "two") (Date 2024 3 10)]]> empty_store)).
Proof.
  split; [reflexivity|].
  destruct (notes_display_and_delete
              (<["notes" := [new_note (py "first") (py "one") (Date 2024 3 9);
                             new_note (py "second") (py "two") (Date 2024 3 10)]]> empty_store)
              [new_note (py "first") (py "one") (Date 2024 3 9);
               new_note (py "second") (py "two") (Date 2024 3 10)]
              (lookup_insert_eq _ _ _)) as (_ & _ & Hadd).
  destruct (Hadd (py "third") (py "three") (Date 2024 3 11))
    as (data1 & Hrun & _ & _ & Hdel); [by_eval..|].
  exists data1. split; [exact Hrun|exact Hdel].
Defined.

(** ** Mood log *)

(** The point the chart draws for one logged mood. *)
Lemma new_mood_entry_point (m : mood) (today : date) :
  new_mood_entry m today !! "date" = Some (VStr (isoformat today)) /\
  new_mood_entry m today !! "mood" = Some (VStr (mood_label m)) /\
  score (new_mood_entry m today) = Some (Z.of_nat (mood_index m) + 1)%Z.
Proof.
  unfold score, new_mood_entry.
  rewrite lookup_insert_eq, lookup_insert_ne, lookup_insert_eq by discriminate.
  split; [reflexivity|]. split; [reflexivity|].
  destruct m; by_eval.
Qed.

Lemma mood_options_labels (m : mood) :
  mood_options !! mood_index m = Some (mood_label m).
Proof. destruct m; reflexivity. Qed.

Lemma mood_options_NoDup : NoDup mood_options.
Proof.
  unfold mood_options.
  repeat (apply NoDup_cons; split;
          [rewrite ?elem_of_cons, elem_of_nil; intros H;
           repeat (destruct H as [H|H]; [discriminate H|]); exact H|]).
  apply NoDup_nil. exact I.
Qed.

Lemma run_log_moods (e : mood * date) (es : list (mood * date)) (data : store) :
  run ((fun x => LogMood x.1 x.2) <$> e :: es) data
  = Ok (<["mood_log" := setdefault data "mood_log"
                          ++ ((fun x => new_mood_entry x.1 x.2) <$> e :: es)]> data).
Proof.
  revert e data. induction es as [|e' es IH]; intros e data.
  - reflexivity.
  - change (run ((fun x => LogMood x.1 x.2) <$> e :: e' :: es) data)
      with (run ((fun x => LogMood x.1 x.2) <$> e' :: es)
              (<["mood_log" := setdefault data "mood_log" ++ [new_mood_entry e.1 e.2]]> data)).
    rewrite IH. unfold setdefault at 1. rewrite lookup_insert_eq. simpl.
    rewrite insert_insert_eq, <- app_assoc. reflexivity.
Qed.

Lemma mood_series_app_logged (old : list record) (e : mood * date) (es : list (mood * date)) :
  mood_series (old ++ ((fun x => new_mood_entry x.1 x.2) <$> e :: es))
  = Ok (((fun r => (r !! "date", score r)) <$> old)
        ++ ((fun x => (Some (VStr (isoformat x.2)), Some (Z.of_nat (mood_index x.1) + 1)%Z))
              <$> e :: es)).
Proof.
  unfold mood_series. rewrite bool_decide_eq_true_2.
  - rewrite fmap_app, <- list_fmap_compose. do 2 f_equal.
    apply list_fmap_ext. intros _ [m d] _. simpl.
    destruct (new_mood_entry_point m d) as (-> & _ & ->). reflexivity.
  - apply Exists_app. right. rewrite fmap_cons. apply Exists_cons_hd.
    destruct (new_mood_entry_point e.1 e.2) as (_ & -> & _). eauto.
Qed.

(** C7. Logging the moods [e :: es] one after the other appends one entry
    per click to the mood log, and the mood series has one point per entry
    of the log, in the order of the log: the points of the entries that
    were there stay in place and are followed by one point per click, in
    click order, with the ISO date of the click and the score
    [mood_index + 1], the 1-based rank of the label among the five
    [mood_options] (which are pairwise distinct).  Nothing is sorted or
    merged by date.  Logging Sad, Awesome, Good in a fresh store gives the
    scores 1, 5, 3 in that order. *)
Theorem mood_series_in_log_order :
  (forall (data : store) (e : mood * date) (es : list (mood * date)),
      exists data' : store,
        run ((fun x => LogMood x.1 x.2) <$> e :: es) data = Ok data' /\
        data' !! "mood_log"
        = Some (setdefault data "mood_log" ++ ((fun x => new_mood_entry x.1 x.2) <$> e :: es)) /\
        mood_series (setdefault data "mood_log" ++ ((fun x => new_mood_entry x.1 x.2) <$> e :: es))
        = Ok (((fun r => (r !! "date", score r)) <$> setdefault data "mood_log")
              ++ ((fun x => (Some (VStr (isoformat x.2)), Some (Z.of_nat (mood_index x.1) + 1)%Z))
                    <$> e :: es))) /\
  (forall m : mood, mood_options !! mood_index m = Some (mood_label m)) /\
  length mood_options = 5 /\
  NoDup mood_options /\
  (forall d1 d2 d3 : date,
      exists data' : store,
        run [LogMood Sad d1; LogMood Awesome d2; LogMood Good d3] empty_store = Ok data' /\
        mood_series (setdefault data' "mood_log")
        = Ok [(Some (VStr (isoformat d1)), Some 1%Z);
              (Some (VStr (isoformat d2)), Some 5%Z);
              (Some (VStr (isoformat d3)), Some 3%Z)]).
Proof.
  split; [|split; [|split; [|split]]].
  - intros data e es. eexists. split; [apply run_log_moods|].
    split; [apply lookup_insert_eq|]. apply mood_series_app_logged.
  - apply mood_options_labels.
  - reflexivity.
  - apply mood_options_NoDup.
  - intros d1 d2 d3. eexists. split.
    + exact (run_log_moods (Sad, d1) [(Awesome, d2); (Good, d3)] empty_store).
    + unfold setdefault at 1. rewrite lookup_insert_eq.
      exact (mood_series_app_logged [] (Sad, d1) [(Awesome, d2); (Good, d3)]).
Qed.

(** ** Habits *)

Lemma mark_habit_today_in_range
    (h_idx : nat) (data : store) (habits : list record) (h : record) (n : Z) :
  data !! "habits" = Some habits ->
  habits !! h_idx = Some h ->
  default (VInt 0) (h !! "streak") = VInt n ->
  mark_habit_today h_idx data
  = Ok (Rerun (<["habits" := <[h_idx := <["streak" := VInt (n + 1)]> h]> habits]> data)).
Proof.
  intros Hhabits Hh Hn. unfold mark_habit_today, getitem, list_getitem.
  rewrite Hhabits. simpl. rewrite Hh. simpl. rewrite Hn. reflexivity.
Qed.

Lemma run_mark_habit_today
    (k h_idx : nat) (data : store) (habits : list record) (h : record) (n : Z) :
  data !! "habits" = Some habits ->
  habits !! h_idx = Some h ->
  h !! "streak" = Some (VInt n) ->
  run (replicate k (MarkHabitToday h_idx)) data
  = Ok (<["habits" := <[h_idx := <["streak" := VInt (n + Z.of_nat k)]> h]> habits]> data).
Proof.
  revert data habits h n.
  induction k as [|k IH]; intros data habits h n Hhabits Hh Hn.
  - simpl. rewrite Z.add_0_r, (insert_id h "streak" _ Hn).
    rewrite (list_insert_id habits h_idx h Hh), (insert_id data "habits" _ Hhabits).
    reflexivity.
  - simpl. rewrite (mark_habit_today_in_range h_idx data habits h n Hhabits Hh)
      by (rewrite Hn; reflexivity).
    simpl.
    rewrite (IH _ (<[h_idx := <["streak" := VInt (n + 1)]> h]> habits)
               (<["streak" := VInt (n + 1)]> h) (n + 1)%Z).
    + rewrite !insert_insert_eq, list_insert_insert_eq.
      do 5 f_equal. lia.
    + apply lookup_insert_eq.
    + apply list_lookup_insert_eq. apply lookup_lt_Some in Hh. exact Hh.
    + apply lookup_insert_eq.
Qed.

(** C8. For a habit at an index within the habit list whose streak is the
    integer [n], one click on [Mark today] stores the streak [n + 1], and
    [k] clicks in a row store [n + k]: every click counts, whatever the day
    (the handler reads no date).  The name and any other field of the
    habit, the other habits, the length of the habit list and the other
    lists of the store are unchanged. *)
Theorem mark_habit_today_increments
    (k h_idx : nat) (data : store) (habits : list record) (h : record) (n : Z) :
  data !! "habits" = Some habits ->
  habits !! h_idx = Some h ->
  h !! "streak" = Some (VInt n) ->
  mark_habit_today h_idx data
  = Ok (Rerun (<["habits" := <[h_idx := <["streak" := VInt (n + 1)]> h]> habits]> data)) /\
  exists (data' : store) (habits' : list record) (h' : record),
    run (replicate k (MarkHabitToday h_idx)) data = Ok data' /\
    data' !! "habits" = Some habits' /\
    habits' !! h_idx = Some h' /\
    h' !! "streak" = Some (VInt (n + Z.of_nat k)) /\
    (forall field : string, field <> "streak" -> h' !! field = h !! field) /\
    (forall j : nat, j <> h_idx -> habits' !! j = habits !! j) /\
    length habits' = length habits /\
    (forall key : string, key <> "habits" -> data' !! key = data !! key).
Proof.
  intros Hhabits Hh Hn. split.
  - apply (mark_habit_today_in_range h_idx data habits h n Hhabits Hh).
    rewrite Hn. reflexivity.
  - eexists _, _, _.
    split; [exact (run_mark_habit_today k h_idx data habits h n Hhabits Hh Hn)|].
    split; [apply lookup_insert_eq|].
    split; [apply list_lookup_insert_eq; apply lookup_lt_Some in Hh; exact Hh|].
    split; [apply lookup_insert_eq|].
    split; [intros field Hf; apply lookup_insert_ne; congruence|].
    split; [intros j Hj; apply list_lookup_insert_ne; congruence|].
    split; [apply length_insert|].
    intros key Hkey. apply lookup_insert_ne. congruence.
Qed.

(** Two habits; the second one is marked twice on the same day. *)
Lemma mark_habit_today_increments_witness :
  exists data' : store,
    run [MarkHabitToday 1; MarkHabitToday 1]
      (<["habits" := [new_habit (py "run"); new_habit (py "read")]]> empty_store) = Ok data' /\
    data' !! "habits"
    = Some [new_habit (py "run"); <["streak" := VInt 2]> (new_habit (py "read"))].
Proof.
  destruct (mark_habit_today_increments 2 1
              (<["habits" := [new_habit (py "run"); new_habit (py "read")]]> empty_store)
              [new_habit (py "run"); new_habit (py "read")]
              (new_habit (py "read")) 0)
    as (_ & data' & habits' & h' & Hrun & Hhabits & Hh & Hstreak & Hfield & Hother & Hlen & _).
  - reflexivity.
  - reflexivity.
  - reflexivity.
  - exists data'. split; [exact Hrun|]. rewrite Hhabits. f_equal.
    pose proof (Hother 0 ltac:(lia)) as H0.
    destruct habits' as [|a [|b [|c r]]]; simpl in *; try discriminate.
    injection H0 as ->. injection Hh as ->. f_equal. f_equal.
    apply map_eq. intros field.
    destruct (decide (field = "streak")) as [->|Hne].
    + rewrite Hstreak. reflexivity.
    + rewrite (Hfield field Hne), lookup_insert_ne by congruence. reflexivity.
Defined.

(** ** Trimmed strings in the store *)

Lemma isspace_printable (c : N) : (0x21 <= c <= 0x7E)%N -> isspace c = false.
Proof.
  intros Hc. unfold isspace.
  repeat (apply orb_false_intro);
    first [apply N.eqb_neq; lia
          | apply andb_false_iff;
            first [left; apply N.leb_gt; lia | right; apply N.leb_gt; lia]].
Qed.

Lemma isspace_digit (n : N) : isspace (digit n) = false.
Proof.
  apply isspace_printable. unfold digit.
  pose proof (N.mod_lt n 10 ltac:(discriminate)) as Hlt.
  generalize dependent (n mod 10)%N. intros k Hk. lia.
Qed.

Lemma isoformat_trimmed (d : date) : trimmed (isoformat d).
Proof.
  split; intros c [= <-]; apply isspace_digit.
Qed.

Ltac trimmed_literal :=
  split; intros ? Hc; vm_compute in Hc; injection Hc as <-; reflexivity.

Lemma priority_label_trimmed (p : priority) : trimmed (priority_label p).
Proof. destruct p; trimmed_literal. Qed.

Lemma status_label_trimmed (s : status) : trimmed (status_label s).
Proof. destruct s; trimmed_literal. Qed.

Lemma mood_label_trimmed (m : mood) : trimmed (mood_label m).
Proof. destruct m; trimmed_literal. Qed.

Lemma record_trimmed_insert (k : string) (v : value) (r : record) :
  value_trimmed v -> record_trimmed r -> record_trimmed (<[k := v]> r).
Proof. intros Hv Hr. apply map_Forall_insert_2; assumption. Qed.

Lemma record_trimmed_empty : record_trimmed ∅.
Proof. apply map_Forall_empty. Qed.

Create HintDb trimmed.

#[local] Hint Resolve record_trimmed_insert record_trimmed_empty strip_trimmed
  isoformat_trimmed priority_label_trimmed status_label_trimmed
  mood_label_trimmed : trimmed.

Lemma new_task_trimmed (task_name : str) (p : priority) (due_date : date) :
  record_trimmed (new_task task_name p due_date).
Proof.
  unfold new_task. repeat apply record_trimmed_insert; simpl; auto with trimmed.
  exact (status_label_trimmed Pending).
Qed.

Lemma task_changes_trimmed (new_name : str) (new_priority : priority)
    (new_due : date) (new_status : status) :
  record_trimmed (task_changes new_name new_priority new_due new_status).
Proof.
  unfold task_changes. repeat apply record_trimmed_insert; simpl; auto with trimmed.
Qed.

Lemma new_note_trimmed (note_title note_body : str) (today : date) :
  record_trimmed (new_note note_title note_body today).
Proof.
  unfold new_note. repeat apply record_trimmed_insert; simpl; auto with trimmed.
Qed.

Lemma new_habit_trimmed (habit_name : str) : record_trimmed (new_habit habit_name).
Proof.
  unfold new_habit. repeat apply record_trimmed_insert; simpl; auto with trimmed.
Qed.

Lemma new_mood_entry_trimmed (m : mood) (today : date) :
  record_trimmed (new_mood_entry m today).
Proof.
  unfold new_mood_entry. repeat apply record_trimmed_insert; simpl; auto with trimmed.
Qed.

Lemma empty_store_trimmed : store_trimmed empty_store.
Proof.
  unfold store_trimmed, empty_store.
  repeat (apply map_Forall_insert_2; [apply Forall_nil; exact I|]).
  apply map_Forall_empty.
Qed.

Lemma store_trimmed_lookup (data : store) (k : string) (l : list record) :
  store_trimmed data -> data !! k = Some l -> Forall record_trimmed l.
Proof. intros Hd Hl. exact (map_Forall_lookup_1 _ data k l Hd Hl). Qed.

Lemma store_trimmed_setdefault (data : store) (k : string) :
  store_trimmed data -> Forall record_trimmed (setdefault data k).
Proof.
  intros Hd. unfold setdefault. destruct (data !! k) as [l|] eqn:Hl; simpl.
  - exact (store_trimmed_lookup data k l Hd Hl).
  - apply Forall_nil. exact I.
Qed.

Lemma store_trimmed_insert (data : store) (k : string) (l : list record) :
  Forall record_trimmed l -> store_trimmed data -> store_trimmed (<[k := l]> data).
Proof. intros Hl Hd. apply map_Forall_insert_2; assumption. Qed.

Lemma store_trimmed_append (data : store) (k : string) (r : record) :
  record_trimmed r -> store_trimmed data ->
  store_trimmed (<[k := setdefault data k ++ [r]]> data).
Proof.
  intros Hr Hd. apply store_trimmed_insert; [|exact Hd].
  apply Forall_app_2; [apply store_trimmed_setdefault; exact Hd|].
  apply Forall_cons. split; [exact Hr|apply Forall_nil; exact I].
Qed.

(** Unfolds the item reads of a handler that returned, one at a time. *)
Ltac handler_returned H :=
  unfold getitem, list_getitem, pop in H;
  repeat match type of H with
         | context [?d !! ?k] =>
             let E := fresh "E" in
             destruct (d !! k) eqn:E; simpl in H; [|discriminate H]
         end.

Lemma handle_trimmed (a : action) (data : store) (o : outcome) :
  store_trimmed data -> handle a data = Ok o -> store_trimmed (after o data).
Proof.
  intros Hd Ho. destruct a; simpl in Ho.
  - unfold add_task in Ho. case_bool_decide; [injection Ho as <-; exact Hd|].
    handler_returned Ho. injection Ho as <-. simpl.
    apply store_trimmed_insert; [|exact Hd].
    apply Forall_app_2; [exact (store_trimmed_lookup _ _ _ Hd E)|].
    apply Forall_cons. split; [apply new_task_trimmed|apply Forall_nil; exact I].
  - unfold mark_done in Ho. handler_returned Ho. injection Ho as <-. simpl.
    pose proof (store_trimmed_lookup _ _ _ Hd E) as Hl.
    apply store_trimmed_insert; [|exact Hd].
    apply Forall_insert; [exact Hl|].
    apply record_trimmed_insert; [exact (status_label_trimmed Completed)|].
    exact (Forall_lookup_1 _ _ _ _ Hl E0).
  - unfold update_task in Ho. handler_returned Ho. injection Ho as <-. simpl.
    pose proof (store_trimmed_lookup _ _ _ Hd E) as Hl.
    apply store_trimmed_insert; [|exact Hd].
    apply Forall_insert; [exact Hl|].
    apply map_Forall_union_2; [apply task_changes_trimmed|].
    exact (Forall_lookup_1 _ _ _ _ Hl E0).
  - unfold delete_task in Ho. handler_returned Ho. injection Ho as <-. simpl.
    apply store_trimmed_insert; [|exact Hd].
    apply Forall_delete. exact (store_trimmed_lookup _ _ _ Hd E).
  - unfold add_note in Ho.
    destruct (bool_decide (strip note_title = []) || bool_decide (strip note_body = []));
      injection Ho as <-; [exact Hd|].
    simpl. apply store_trimmed_append; [apply new_note_trimmed|exact Hd].
  - unfold delete_note in Ho. handler_returned Ho. injection Ho as <-. simpl.
    apply store_trimmed_insert; [|exact Hd].
    apply Forall_delete. exact (store_trimmed_lookup _ _ _ Hd E).
  - unfold add_habit in Ho. case_bool_decide; injection Ho as <-; [exact Hd|].
    simpl. apply store_trimmed_append; [apply new_habit_trimmed|exact Hd].
  - unfold mark_habit_today in Ho.
    unfold getitem, list_getitem in Ho.
    destruct (data !! "habits") as [habits|] eqn:E; simpl in Ho; [|discriminate Ho].
    destruct (habits !! h_idx) as [h|] eqn:E0; simpl in Ho; [|discriminate Ho].
    destruct (py_add (default (VInt 0) (h !! "streak")) (VInt 1)) as [v|] eqn:Hv;
      simpl in Ho; [|discriminate Ho].
    injection Ho as <-. simpl.
    pose proof (store_trimmed_lookup _ _ _ Hd E) as Hl.
    apply store_trimmed_insert; [|exact Hd].
    apply Forall_insert; [exact Hl|].
    apply record_trimmed_insert; [|exact (Forall_lookup_1 _ _ _ _ Hl E0)].
    destruct (default (VInt 0) (h !! "streak")); simpl in Hv; [discriminate Hv|].
    injection Hv as <-. exact I.
  - unfold log_mood in Ho. injection Ho as <-. simpl.
    apply store_trimmed_append; [apply new_mood_entry_trimmed|exact Hd].
  - unfold reset_all in Ho. injection Ho as <-. exact empty_store_trimmed.
Qed.

Lemma run_trimmed (acts : list action) (data data' : store) :
  store_trimmed data -> run acts data = Ok data' -> store_trimmed data'.
Proof.
  revert data. induction acts as [|a acts IH]; intros data Hd Hrun; simpl in Hrun.
  - injection Hrun as <-. exact Hd.
  - destruct (handle a data) as [o|e] eqn:Ho; simpl in Hrun; [|discriminate Hrun].
    exact (IH _ (handle_trimmed a data o Hd Ho) Hrun).
Qed.



(** ** Records with a missing field *)

(** The line of a habit reads [h['streak']] without a default. *)
Lemma habit_view_missing_streak (h : record) (name : value) :
  h !! "name" = Some name ->
  h !! "streak" = None ->
  habit_view h = Raise KeyError.
Proof.
  intros Hname Hstreak. unfold habit_view, getitem.
  rewrite Hname. simpl. rewrite Hstreak. reflexivity.
Qed.



(** * Further properties of the handlers *)

(** ** Validation of the typed strings *)

Lemma lstrip_blank_prefix (s : str) : exists p, s = p ++ lstrip s /\ blank p.
Proof.
  induction s as [|c r (p & Hp & Hb)]; simpl.
  - exists []. split; [reflexivity|apply Forall_nil; exact I].
  - destruct (isspace c) eqn:Hc.
    + exists (c :: p). split; [simpl; congruence|].
      apply Forall_cons. split; assumption.
    + exists []. split; [reflexivity|apply Forall_nil; exact I].
Qed.

Lemma lstrip_blank (s : str) : blank s -> lstrip s = [].
Proof.
  induction 1 as [|c r Hc _ IH]; simpl; [reflexivity|].
  rewrite Hc. exact IH.
Qed.

Lemma strip_decompose (s : str) :
  exists l r, s = l ++ strip s ++ r /\ blank l /\ blank r.
Proof.
  destruct (lstrip_blank_prefix s) as (l & Hl & Hbl).
  destruct (lstrip_blank_prefix (reverse (lstrip s))) as (q & Hq & Hbq).
  exists l, (reverse q). split; [|split; [exact Hbl|]].
  - unfold strip, rstrip. rewrite <- reverse_app, <- Hq, reverse_involutive. exact Hl.
  - unfold blank. apply Forall_reverse. exact Hbq.
Qed.

Lemma strip_nil_iff (s : str) : strip s = [] <-> blank s.
Proof.
  split.
  - intros Hs. destruct (strip_decompose s) as (l & r & Heq & Hl & Hr).
    rewrite Hs in Heq. rewrite Heq. apply Forall_app_2; assumption.
  - intros Hb. unfold strip. rewrite (lstrip_blank s Hb). reflexivity.
Qed.

(** X1. Each create handler refuses exactly the inputs in which a required
    string is made of whitespace only (the empty string included): [Add
    task] warns if and only if the name is blank, [Save note] if and only
    if the title or the content is blank, [Add habit] if and only if the
    name is blank.  A warning leaves the store as it was, and is given
    whatever the store holds, even without the list. *)
Theorem create_handlers_refuse_blank :
  (forall (task_name : str) (p : priority) (due_date : date) (data : store),
      blank task_name <->
      add_task task_name p due_date data = Ok (Warning "Please enter a task name.")) /\
  (forall (note_title note_body : str) (today : date) (data : store),
      blank note_title \/ blank note_body <->
      add_note note_title note_body today data
      = Ok (Warning "Please provide both a title and content for the note.")) /\
  (forall (habit_name : str) (data : store),
      blank habit_name <->
      add_habit habit_name data = Ok (Warning "Enter a habit name.")) /\
  (forall (a : action) (data : store) (msg : string),
      handle a data = Ok (Warning msg) -> run [a] data = Ok data).
Proof.
  split; [|split; [|split]].
  - intros task_name p due_date data. rewrite <- strip_nil_iff. unfold add_task.
    case_bool_decide as Hs; split; try tauto; try reflexivity.
    intros Hw. exfalso. unfold getitem in Hw.
    destruct (data !! "tasks"); simpl in Hw; discriminate Hw.
  - intros note_title note_body today data. rewrite <- !strip_nil_iff. unfold add_note.
    do 2 case_bool_decide; simpl; split; try tauto; try reflexivity;
      intros Hw; discriminate Hw.
  - intros habit_name data. rewrite <- strip_nil_iff. unfold add_habit.
    case_bool_decide; split; try tauto; try reflexivity.
    intros Hw; discriminate Hw.
  - intros a data msg Hw. simpl. rewrite Hw. reflexivity.
Qed.

(** X2. What the create handlers store is the typed string with whitespace
    removed at its two ends and nothing else: the typed string is a blank
    prefix, the stored string, and a blank suffix. *)
Theorem stored_strings_keep_the_text :
  (forall (task_name : str) (p : priority) (due_date : date),
      exists (l stored r : str),
        new_task task_name p due_date !! "name" = Some (VStr stored) /\
        task_name = l ++ stored ++ r /\ blank l /\ blank r) /\
  (forall (note_title note_body : str) (today : date),
      exists (l1 title r1 l2 content r2 : str),
        new_note note_title note_body today !! "title" = Some (VStr title) /\
        new_note note_title note_body today !! "content" = Some (VStr content) /\
        note_title = l1 ++ title ++ r1 /\ blank l1 /\ blank r1 /\
        note_body = l2 ++ content ++ r2 /\ blank l2 /\ blank r2) /\
  (forall habit_name : str,
      exists (l stored r : str),
        new_habit habit_name !! "name" = Some (VStr stored) /\
        habit_name = l ++ stored ++ r /\ blank l /\ blank r).
Proof.
  split; [|split].
  - intros task_name p due_date.
    destruct (strip_decompose task_name) as (l & r & Heq & Hl & Hr).
    exists l, (strip task_name), r. repeat split; try assumption.
  - intros note_title note_body today.
    destruct (strip_decompose note_title) as (l1 & r1 & Heq1 & Hl1 & Hr1).
    destruct (strip_decompose note_body) as (l2 & r2 & Heq2 & Hl2 & Hr2).
    exists l1, (strip note_title), r1, l2, (strip note_body), r2.
    repeat split; try assumption.
  - intros habit_name.
    destruct (strip_decompose habit_name) as (l & r & Heq & Hl & Hr).
    exists l, (strip habit_name), r. repeat split; try assumption.
Qed.

(** ** Marking and editing tasks *)

Lemma mark_done_in_range (i : nat) (data : store) (tasks : list record) (t : record) :
  data !! "tasks" = Some tasks ->
  tasks !! i = Some t ->
  mark_done i data
  = Ok (Rerun (<["tasks" := <[i := <["status" := VStr (py "Completed")]> t]> tasks]> data)).
Proof.
  intros Htasks Ht. unfold mark_done, getitem, list_getitem.
  rewrite Htasks. simpl. rewrite Ht. reflexivity.
Qed.

Lemma count_completed_insert (tasks : list record) (i : nat) (t t' : record) :
  tasks !! i = Some t ->
  count_completed (<[i := t']> tasks)
  = (count_completed tasks
     - (if is_completed t then 1 else 0) + (if is_completed t' then 1 else 0))%Z.
Proof.
  intros Ht. pose proof (lookup_lt_Some _ _ _ Ht) as Hlt.
  rewrite <- (take_drop_middle tasks i t Ht) at 2.
  rewrite insert_take_drop by exact Hlt.
  rewrite !count_completed_app, !count_completed_cons. lia.
Qed.

Lemma summary_of_tasks (data : store) (tasks : list record) :
  data !! "tasks" = Some tasks ->
  total_tasks (get_summary data) = Z.of_nat (length tasks) /\
  completed (get_summary data) = count_completed tasks /\
  pending (get_summary data) = (Z.of_nat (length tasks) - count_completed tasks)%Z.
Proof.
  intros H. unfold get_summary, len_of. simpl. rewrite H. simpl. repeat split.
Qed.

(** X3. For an index within the task list, [Mark Done] sets the status of
    that task to [Completed] and changes nothing else: the other fields of
    the task, the other tasks, the length of the list and the other lists
    stay.  Clicking it a second time leaves the store exactly as the first
    click left it. *)
Theorem mark_done_idempotent (i : nat) (data : store) (tasks : list record) (t : record) :
  data !! "tasks" = Some tasks ->
  tasks !! i = Some t ->
  exists (data' : store) (tasks' : list record) (t' : record),
    run [MarkDone i] data = Ok data' /\
    run [MarkDone i; MarkDone i] data = Ok data' /\
    data' !! "tasks" = Some tasks' /\
    tasks' !! i = Some t' /\
    t' !! "status" = Some (VStr (status_label Completed)) /\
    (forall field : string, field <> "status" -> t' !! field = t !! field) /\
    (forall j : nat, j <> i -> tasks' !! j = tasks !! j) /\
    length tasks' = length tasks /\
    (forall key : string, key <> "tasks" -> data' !! key = data !! key).
Proof.
  intros Htasks Ht. pose proof (lookup_lt_Some _ _ _ Ht) as Hlt.
  set (t' := <["status" := VStr (py "Completed")]> t).
  exists (<["tasks" := <[i := t']> tasks]> data), (<[i := t']> tasks), t'.
  assert (H1 : mark_done i data = Ok (Rerun (<["tasks" := <[i := t']> tasks]> data)))
    by exact (mark_done_in_range i data tasks t Htasks Ht).
  split; [simpl; rewrite H1; reflexivity|].
  split.
  { simpl. rewrite H1. simpl.
    rewrite (mark_done_in_range i _ (<[i := t']> tasks) t').
    - simpl. rewrite insert_insert_eq, list_insert_insert_eq.
      unfold t'. rewrite insert_insert_eq. reflexivity.
    - apply lookup_insert_eq.
    - apply list_lookup_insert_eq. exact Hlt. }
  split; [apply lookup_insert_eq|].
  split; [apply list_lookup_insert_eq; exact Hlt|].
  split; [apply lookup_insert_eq|].
  split; [intros field Hf; apply lookup_insert_ne; congruence|].
  split; [intros j Hj; apply list_lookup_insert_ne; congruence|].
  split; [apply length_insert|].
  intros key Hkey. apply lookup_insert_ne. congruence.
Qed.

(** Marking the only task of [milk_store] done, twice. *)
Lemma mark_done_idempotent_witness :
  exists data' : store,
    run [MarkDone 0] milk_store = Ok data' /\
    run [MarkDone 0; MarkDone 0] milk_store = Ok data'.
Proof.
  destruct (mark_done_idempotent 0 milk_store [milk_task] milk_task)
    as (data' & _ & _ & H1 & H2 & _); [reflexivity..|].
  exists data'. split; assumption.
Defined.

(** X4. In the snapshot, [Mark Done] on a task that was not completed moves
    one task from pending to completed; on a task that was already
    completed it changes no count.  The total never changes. *)
Theorem mark_done_summary (i : nat) (data : store) (tasks : list record) (t : record) :
  data !! "tasks" = Some tasks ->
  tasks !! i = Some t ->
  exists data' : store,
    mark_done i data = Ok (Rerun data') /\
    total_tasks (get_summary data') = total_tasks (get_summary data) /\
    completed (get_summary data')
    = (completed (get_summary data) + (if is_completed t then 0 else 1))%Z /\
    pending (get_summary data')
    = (pending (get_summary data) - (if is_completed t then 0 else 1))%Z.
Proof.
  intros Htasks Ht. eexists. split; [exact (mark_done_in_range i data tasks t Htasks Ht)|].
  destruct (summary_of_tasks data tasks Htasks) as (-> & -> & ->).
  destruct (summary_of_tasks _ _ (lookup_insert_eq data "tasks"
              (<[i := <["status" := VStr (py "Completed")]> t]> tasks))) as (-> & -> & ->).
  rewrite length_insert, (count_completed_insert tasks i t _ Ht).
  assert (Hc : is_completed (<["status" := VStr (py "Completed")]> t) = true).
  { unfold is_completed. rewrite lookup_insert_eq. reflexivity. }
  rewrite Hc. destruct (is_completed t); repeat split; lia.
Qed.

(** The pending task of [milk_store] becomes the one completed task. *)
Lemma mark_done_summary_witness :
  exists data' : store,
    mark_done 0 milk_store = Ok (Rerun data') /\
    completed (get_summary data') = 1%Z /\
    pending (get_summary data') = 0%Z.
Proof.
  destruct (mark_done_summary 0 milk_store [milk_task] milk_task)
    as (data' & Hrun & _ & Hc & Hp); [reflexivity..|].
  exists data'. split; [exact Hrun|]. rewrite Hc, Hp. split; reflexivity.
Defined.

Lemma task_changes_fields (new_name : str) (new_priority : priority)
    (new_due : date) (new_status : status) (k : string) :
  task_changes new_name new_priority new_due new_status !! k =
    if decide (k = "name") then Some (VStr (strip new_name))
    else if decide (k = "priority") then Some (VStr (priority_label new_priority))
    else if decide (k = "due") then Some (VStr (isoformat new_due))
    else if decide (k = "status") then Some (VStr (status_label new_status))
    else None.
Proof.
  unfold task_changes.
  repeat (case_decide; [subst k; simplify_map_eq; reflexivity|]).
  simplify_map_eq. reflexivity.
Qed.



(** ** Creating notes and habits *)

(** X6. With a title and a content that are not blank, [Save note] appends
    exactly one note at the end of the note list, with the stripped title,
    the stripped content, the ISO date of the day and no other key; when the
    store has no note list yet the handler creates it instead of raising.
    The note count of the snapshot grows by 1 and the other lists are
    unchanged. *)
Theorem add_note_appends
    (note_title note_body : str) (today : date) (data : store) :
  strip note_title <> [] ->
  strip note_body <> [] ->
  exists data' : store,
    add_note note_title note_body today data = Ok (Rerun data') /\
    data' !! "notes"
    = Some (default [] (data !! "notes") ++ [new_note note_title note_body today]) /\
    (forall k : string,
        new_note note_title note_body today !! k =
          if decide (k = "title") then Some (VStr (strip note_title))
          else if decide (k = "content") then Some (VStr (strip note_body))
          else if decide (k = "date") then Some (VStr (isoformat today))
          else None) /\
    total_notes (get_summary data') = (total_notes (get_summary data) + 1)%Z /\
    (forall key : string, key <> "notes" -> data' !! key = data !! key).
Proof.
  intros Ht Hb. eexists. split; [exact (add_note_valid _ _ _ _ Ht Hb)|].
  split; [apply lookup_insert_eq|]. split.
  { intros k. unfold new_note.
    repeat (case_decide; [subst k; simplify_map_eq; reflexivity|]).
    simplify_map_eq. reflexivity. }
  split.
  { unfold get_summary, len_of, setdefault. simpl. rewrite lookup_insert_eq. simpl.
    rewrite length_app. simpl. lia. }
  intros key Hkey. apply lookup_insert_ne. congruence.
Qed.

(** A first note on a store that has no note list. *)
Lemma add_note_appends_witness :
  exists data' : store,
    add_note (py " list ") (py "eggs") (Date 2024 3 9) ∅ = Ok (Rerun data') /\
    data' !! "notes" = Some [new_note (py " list ") (py "eggs") (Date 2024 3 9)] /\
    total_notes (get_summary data') = 1%Z.
Proof.
  destruct (add_note_appends (py " list ") (py "eggs") (Date 2024 3 9) ∅)
    as (data' & Hrun & Hnotes & _ & Htotal & _); [by_eval..|].
  exists data'. split; [exact Hrun|]. split; [exact Hnotes|].
  rewrite Htotal. reflexivity.
Defined.

(** X7. With a name that is not blank, [Add habit] appends exactly one
    habit at the end of the habit list, with the stripped name, the streak
    0 and no other key; when the store has no habit list yet the handler
    creates it instead of raising.  The habit count of the snapshot grows
    by 1 and the other lists are unchanged. *)
Theorem add_habit_appends (habit_name : str) (data : store) :
  strip habit_name <> [] ->
  exists data' : store,
    add_habit habit_name data = Ok (Rerun data') /\
    data' !! "habits" = Some (default [] (data !! "habits") ++ [new_habit habit_name]) /\
    (forall k : string,
        new_habit habit_name !! k =
          if decide (k = "name") then Some (VStr (strip habit_name))
          else if decide (k = "streak") then Some (VInt 0)
          else None) /\
    total_habits (get_summary data') = (total_habits (get_summary data) + 1)%Z /\
    (forall key : string, key <> "habits" -> data' !! key = data !! key).
Proof.
  intros Hn. eexists. split.
  { unfold add_habit. rewrite bool_decide_eq_false_2 by exact Hn. reflexivity. }
  split; [apply lookup_insert_eq|]. split.
  { intros k. unfold new_habit.
    repeat (case_decide; [subst k; simplify_map_eq; reflexivity|]).
    simplify_map_eq. reflexivity. }
  split.
  { unfold get_summary, len_of, setdefault. simpl. rewrite lookup_insert_eq. simpl.
    rewrite length_app. simpl. lia. }
  intros key Hkey. apply lookup_insert_ne. congruence.
Qed.

(** A first habit on a store that has no habit list. *)
Lemma add_habit_appends_witness :
  exists data' : store,
    add_habit (py " run ") ∅ = Ok (Rerun data') /\
    data' !! "habits" = Some [new_habit (py " run ")] /\
    total_habits (get_summary data') = 1%Z.
Proof.
  destruct (add_habit_appends (py " run ") ∅)
    as (data' & Hrun & Hhabits & _ & Htotal & _); [by_eval|].
  exists data'. split; [exact Hrun|]. split; [exact Hhabits|].
  rewrite Htotal. reflexivity.
Defined.

(** ** Indices, lists and the snapshot *)



(** X9. In the snapshot of any store the completed count is between 0 and
    the total, pending is total minus completed and is never negative, and
    a list that is missing from the store counts as empty. *)
Theorem summary_bounds (data : store) :
  (0 <= completed (get_summary data) <= total_tasks (get_summary data))%Z /\
  (0 <= pending (get_summary data) <= total_tasks (get_summary data))%Z /\
  (completed (get_summary data) + pending (get_summary data)
   = total_tasks (get_summary data))%Z /\
  total_tasks (get_summary data) = Z.of_nat (length (default [] (data !! "tasks"))) /\
  total_notes (get_summary data) = Z.of_nat (length (default [] (data !! "notes"))) /\
  total_habits (get_summary data) = Z.of_nat (length (default [] (data !! "habits"))) /\
  get_summary ∅ = Summary 0 0 0 0 0.
Proof.
  unfold get_summary, len_of. simpl.
  pose proof (count_completed_bounds (default [] (data !! "tasks"))).
  repeat split; try lia.
Qed.

(** X10. A click writes only to its own list: a task click leaves the
    notes, habits and mood log as they were, and likewise for the others.
    [Reset all data] is the one exception, and it leaves the empty store
    whatever the store was. *)
Theorem clicks_write_their_own_list (a : action) (data : store) (o : outcome) :
  handle a data = Ok o ->
  (a <> ResetAll ->
   forall k : string, k <> list_of a -> after o data !! k = data !! k) /\
  (a = ResetAll -> after o data = empty_store).
Proof.
  intros Ho. split.
  - intros Ha k Hk. destruct a; simpl in Ho, Hk; try congruence.
    + unfold add_task in Ho. case_bool_decide; [injection Ho as <-; reflexivity|].
      handler_returned Ho. injection Ho as <-. simpl. apply lookup_insert_ne. congruence.
    + unfold mark_done in Ho. handler_returned Ho. injection Ho as <-. simpl.
      apply lookup_insert_ne. congruence.
    + unfold update_task in Ho. handler_returned Ho. injection Ho as <-. simpl.
      apply lookup_insert_ne. congruence.
    + unfold delete_task in Ho. handler_returned Ho. injection Ho as <-. simpl.
      apply lookup_insert_ne. congruence.
    + unfold add_note in Ho.
      destruct (bool_decide (strip note_title = []) || bool_decide (strip note_body = []));
        injection Ho as <-; [reflexivity|].
      simpl. apply lookup_insert_ne. congruence.
    + unfold delete_note in Ho. handler_returned Ho. injection Ho as <-. simpl.
      apply lookup_insert_ne. congruence.
    + unfold add_habit in Ho. case_bool_decide; injection Ho as <-; [reflexivity|].
      simpl. apply lookup_insert_ne. congruence.
    + unfold mark_habit_today in Ho. unfold getitem, list_getitem in Ho.
      destruct (data !! "habits") as [habits|]; simpl in Ho; [|discriminate Ho].
      destruct (habits !! h_idx) as [h|]; simpl in Ho; [|discriminate Ho].
      destruct (py_add (default (VInt 0) (h !! "streak")) (VInt 1));
        simpl in Ho; [|discriminate Ho].
      injection Ho as <-. simpl. apply lookup_insert_ne. congruence.
    + unfold log_mood in Ho. injection Ho as <-. simpl. apply lookup_insert_ne. congruence.
  - intros ->. simpl in Ho. unfold reset_all in Ho. injection Ho as <-. reflexivity.
Qed.

(** Marking the task of [milk_store] done leaves its note list alone. *)
Lemma clicks_write_their_own_list_witness :
  after (Rerun (<["tasks" := [<["status" := VStr (py "Completed")]> milk_task]]> milk_store))
    milk_store !! "notes"
  = milk_store !! "notes".
Proof.
  apply (proj1 (clicks_write_their_own_list (MarkDone 0) milk_store
                  (Rerun (<["tasks" := [<["status" := VStr (py "Completed")]> milk_task]]>
                            milk_store))
                  eq_refl)).
  - discriminate.
  - discriminate.
Defined.

(** ** Well-formed stores *)

Lemma store_wf_empty : store_wf empty_store.
Proof.
  exists [], [], [], []. repeat split; try reflexivity; apply Forall_nil; exact I.
Qed.

Lemma store_wf_tasks (data : store) (l : list record) :
  store_wf data -> Forall task_wf l -> store_wf (<["tasks" := l]> data).
Proof.
  intros (tasks & notes & habits & mood_log & H1 & F1 & H2 & F2 & H3 & F3 & H4 & F4) Hl.
  exists l, notes, habits, mood_log.
  rewrite lookup_insert_eq, !lookup_insert_ne by discriminate. repeat split; assumption.
Qed.

Lemma store_wf_notes (data : store) (l : list record) :
  store_wf data -> Forall note_wf l -> store_wf (<["notes" := l]> data).
Proof.
  intros (tasks & notes & habits & mood_log & H1 & F1 & H2 & F2 & H3 & F3 & H4 & F4) Hl.
  exists tasks, l, habits, mood_log.
  rewrite lookup_insert_eq, !lookup_insert_ne by discriminate. repeat split; assumption.
Qed.

Lemma store_wf_habits (data : store) (l : list record) :
  store_wf data -> Forall habit_wf l -> store_wf (<["habits" := l]> data).
Proof.
  intros (tasks & notes & habits & mood_log & H1 & F1 & H2 & F2 & H3 & F3 & H4 & F4) Hl.
  exists tasks, notes, l, mood_log.
  rewrite lookup_insert_eq, !lookup_insert_ne by discriminate. repeat split; assumption.
Qed.

Lemma store_wf_mood_log (data : store) (l : list record) :
  store_wf data -> Forall mood_wf l -> store_wf (<["mood_log" := l]> data).
Proof.
  intros (tasks & notes & habits & mood_log & H1 & F1 & H2 & F2 & H3 & F3 & H4 & F4) Hl.
  exists tasks, notes, habits, l.
  rewrite lookup_insert_eq, !lookup_insert_ne by discriminate. repeat split; assumption.
Qed.

Lemma store_wf_lists (data : store) (k : string) (l : list record) :
  store_wf data ->
  data !! k = Some l ->
  (k = "tasks" -> Forall task_wf l) /\
  (k = "notes" -> Forall note_wf l) /\
  (k = "habits" -> Forall habit_wf l) /\
  (k = "mood_log" -> Forall mood_wf l).
Proof.
  intros (tasks & notes & habits & mood_log & H1 & F1 & H2 & F2 & H3 & F3 & H4 & F4) Hl.
  repeat split; intros ->; congruence.
Qed.

Lemma Forall_snoc_wf {A} (P : A -> Prop) (l : list A) (x : A) :
  Forall P l -> P x -> Forall P (l ++ [x]).
Proof.
  intros Hl Hx. apply Forall_app_2; [exact Hl|].
  apply Forall_cons. split; [exact Hx|apply Forall_nil; exact I].
Qed.

Lemma new_note_wf (note_title note_body : str) (today : date) :
  note_wf (new_note note_title note_body today).
Proof. unfold note_wf, new_note. repeat split; simplify_map_eq; eauto. Qed.

Lemma new_habit_wf (habit_name : str) : habit_wf (new_habit habit_name).
Proof.
  unfold habit_wf, new_habit. split; [simplify_map_eq; eauto|].
  exists 0%Z. split; [reflexivity|lia].
Qed.

Lemma new_mood_entry_wf (m : mood) (today : date) : mood_wf (new_mood_entry m today).
Proof.
  unfold mood_wf, new_mood_entry. split; [exists today|exists m]; reflexivity.
Qed.

Lemma handle_wf (a : action) (data : store) (o : outcome) :
  store_wf data -> handle a data = Ok o -> store_wf (after o data).
Proof.
  intros Hd Ho. destruct a; simpl in Ho.
  - unfold add_task in Ho. case_bool_decide; [injection Ho as <-; exact Hd|].
    handler_returned Ho. injection Ho as <-. simpl.
    apply store_wf_tasks; [exact Hd|].
    apply Forall_snoc_wf; [exact (proj1 (store_wf_lists _ _ _ Hd E) eq_refl)|].
    unfold task_wf. rewrite new_task_fields. simpl. eauto.
  - unfold mark_done in Ho. handler_returned Ho. injection Ho as <-. simpl.
    pose proof (proj1 (store_wf_lists _ _ _ Hd E) eq_refl) as Hl.
    apply store_wf_tasks; [exact Hd|]. apply Forall_insert; [exact Hl|].
    pose proof (Forall_lookup_1 _ _ _ _ Hl E0) as Ht. unfold task_wf in *.
    rewrite lookup_insert_ne by discriminate. exact Ht.
  - unfold update_task in Ho. handler_returned Ho. injection Ho as <-. simpl.
    pose proof (proj1 (store_wf_lists _ _ _ Hd E) eq_refl) as Hl.
    apply store_wf_tasks; [exact Hd|]. apply Forall_insert; [exact Hl|].
    unfold task_wf. exists (VStr (strip new_name)).
    apply lookup_union_Some_raw. left. rewrite task_changes_fields. reflexivity.
  - unfold delete_task in Ho. handler_returned Ho. injection Ho as <-. simpl.
    apply store_wf_tasks; [exact Hd|]. apply Forall_delete.
    exact (proj1 (store_wf_lists _ _ _ Hd E) eq_refl).
  - unfold add_note in Ho.
    destruct (bool_decide (strip note_title = []) || bool_decide (strip note_body = []));
      injection Ho as <-; [exact Hd|].
    simpl. apply store_wf_notes; [exact Hd|]. apply Forall_snoc_wf; [|apply new_note_wf].
    unfold setdefault. destruct (data !! "notes") as [l|] eqn:E; simpl.
    + exact (proj1 (proj2 (store_wf_lists _ _ _ Hd E)) eq_refl).
    + apply Forall_nil. exact I.
  - unfold delete_note in Ho. handler_returned Ho. injection Ho as <-. simpl.
    apply store_wf_notes; [exact Hd|]. apply Forall_delete.
    exact (proj1 (proj2 (store_wf_lists _ _ _ Hd E)) eq_refl).
  - unfold add_habit in Ho. case_bool_decide; injection Ho as <-; [exact Hd|].
    simpl. apply store_wf_habits; [exact Hd|]. apply Forall_snoc_wf; [|apply new_habit_wf].
    unfold setdefault. destruct (data !! "habits") as [l|] eqn:E; simpl.
    + exact (proj1 (proj2 (proj2 (store_wf_lists _ _ _ Hd E))) eq_refl).
    + apply Forall_nil. exact I.
  - unfold mark_habit_today in Ho. unfold getitem, list_getitem in Ho.
    destruct (data !! "habits") as [habits|] eqn:E; simpl in Ho; [|discriminate Ho].
    destruct (habits !! h_idx) as [h|] eqn:E0; simpl in Ho; [|discriminate Ho].
    pose proof (proj1 (proj2 (proj2 (store_wf_lists _ _ _ Hd E))) eq_refl) as Hl.
    destruct (Forall_lookup_1 _ _ _ _ Hl E0) as (Hname & n & Hn & Hpos).
    rewrite Hn in Ho. simpl in Ho. injection Ho as <-. simpl.
    apply store_wf_habits; [exact Hd|]. apply Forall_insert; [exact Hl|].
    split.
    + rewrite lookup_insert_ne by discriminate. exact Hname.
    + exists (n + 1)%Z. rewrite lookup_insert_eq. split; [reflexivity|lia].
  - unfold log_mood in Ho. injection Ho as <-. simpl.
    apply store_wf_mood_log; [exact Hd|].
    apply Forall_snoc_wf; [|apply new_mood_entry_wf].
    unfold setdefault. destruct (data !! "mood_log") as [l|] eqn:E; simpl.
    + exact (proj2 (proj2 (proj2 (store_wf_lists _ _ _ Hd E))) eq_refl).
    + apply Forall_nil. exact I.
  - unfold reset_all in Ho. injection Ho as <-. exact store_wf_empty.
Qed.

Lemma run_wf (acts : list action) (data data' : store) :
  store_wf data -> run acts data = Ok data' -> store_wf data'.
Proof.
  revert data. induction acts as [|a acts IH]; intros data Hd Hrun; simpl in Hrun.
  - injection Hrun as <-. exact Hd.
  - destruct (handle a data) as [o|e] eqn:Ho; simpl in Hrun; [|discriminate Hrun].
    exact (IH _ (handle_wf a data o Hd Ho) Hrun).
Qed.

Lemma reachable_wf (data : store) : reachable data -> store_wf data.
Proof. intros [acts Hrun]. exact (run_wf acts empty_store data store_wf_empty Hrun). Qed.

(** ** What a session can and cannot do to the page *)

Lemma for_each_ok {A B} (f : A -> result B) (l : list A) :
  Forall (fun x => exists y, f x = Ok y) l ->
  exists ys, for_each f l = Ok ys /\ length ys = length l.
Proof.
  induction 1 as [|x l [y Hy] _ (ys & Hys & Hlen)]; simpl.
  - exists []. split; reflexivity.
  - rewrite Hy. simpl. rewrite Hys. simpl. exists (y :: ys).
    split; [reflexivity|simpl; congruence].
Qed.

Lemma section_of_ok {B} (data : store) (k : string) (rows : list record -> result B) :
  (forall l, data !! k = Some l -> l <> [] -> exists r, rows l = Ok r) ->
  exists r, section_of data k rows = Ok r.
Proof.
  intros Hrows. unfold section_of.
  destruct (data !! k) as [[|x l]|] eqn:Hk; simpl; eauto.
  destruct (Hrows (x :: l) eq_refl ltac:(discriminate)) as [r ->]. simpl. eauto.
Qed.

Lemma task_view_wf (t : record) : task_wf t -> exists row, task_view t = Ok row.
Proof.
  intros [name Hname]. unfold task_view, getitem. rewrite Hname. simpl. eauto.
Qed.

Lemma note_view_wf (n : record) : note_wf n -> exists v, note_view n = Ok v.
Proof.
  intros ([t Ht] & [d Hd] & [c Hc]). unfold note_view, getitem.
  rewrite Ht. simpl. rewrite Hd. simpl. rewrite Hc. simpl. eauto.
Qed.

Lemma habit_view_wf (h : record) :
  habit_wf h ->
  exists (name : value) (n : Z), habit_view h = Ok (name, VInt n) /\ (0 <= n)%Z.
Proof.
  intros ([name Hname] & n & Hn & Hpos). unfold habit_view, getitem.
  rewrite Hname. simpl. rewrite Hn. simpl. eauto.
Qed.

Lemma mood_series_wf (l : list record) :
  l <> [] ->
  Forall mood_wf l ->
  exists pts, mood_series l = Ok pts /\ length pts = length l /\ Forall chart_point pts.
Proof.
  intros Hne Hl. unfold mood_series. rewrite bool_decide_eq_true_2.
  - eexists. split; [reflexivity|]. split; [apply length_fmap|].
    apply Forall_fmap. eapply Forall_impl; [exact Hl|].
    intros r ([d Hd] & [m Hm]). exists d, (Z.of_nat (mood_index m) + 1)%Z. simpl.
    unfold score. rewrite Hd, Hm. split; [|destruct m; simpl; lia].
    f_equal. destruct m; by_eval.
  - destruct l as [|r l]; [congruence|]. apply Exists_cons_hd.
    apply Forall_cons in Hl as [(_ & [m Hm]) _]. rewrite Hm. eauto.
Qed.

(** X11. On every store a session reaches from the empty store, the four
    sections of the page render without raising: every task has the name
    its expander reads, every note its title, date and content, every habit
    its name and streak, and the mood log its [mood] column. *)
Theorem reachable_store_renders (data : store) :
  reachable data ->
  exists tasks_shown notes_shown habits_shown mood_shown,
    tasks_section data = Ok tasks_shown /\
    notes_section data = Ok notes_shown /\
    habits_section data = Ok habits_shown /\
    mood_section data = Ok mood_shown.
Proof.
  intros Hreach. pose proof (reachable_wf data Hreach) as Hd.
  assert (Ht : exists r, tasks_section data = Ok r).
  { apply section_of_ok. intros l Hl _. 
    destruct (for_each_ok task_view l) as (ys & Hys & _); [|eauto].
    eapply Forall_impl; [exact (proj1 (store_wf_lists _ _ _ Hd Hl) eq_refl)|].
    exact task_view_wf. }
  assert (Hn : exists r, notes_section data = Ok r).
  { apply section_of_ok. intros l Hl _.
    destruct (for_each_ok (fun row => v <- note_view row.2 ;; Ok (row.1, v)) (notes_rows l))
      as (ys & Hys & _); [|eauto].
    pose proof (proj1 (proj2 (store_wf_lists _ _ _ Hd Hl)) eq_refl) as Hwf.
    rewrite <- Forall_reverse, <- notes_rows_notes, Forall_fmap in Hwf.
    eapply Forall_impl; [exact Hwf|].
    intros [idx n] Hnote. simpl in *. destruct (note_view_wf n Hnote) as [v ->].
    simpl. eauto. }
  assert (Hh : exists r, habits_section data = Ok r).
  { apply section_of_ok. intros l Hl _.
    destruct (for_each_ok habit_view l) as (ys & Hys & _); [|eauto].
    eapply Forall_impl;
      [exact (proj1 (proj2 (proj2 (store_wf_lists _ _ _ Hd Hl))) eq_refl)|].
    intros h Hwf. destruct (habit_view_wf h Hwf) as (name & n & -> & _). eauto. }
  assert (Hm : exists r, mood_section data = Ok r).
  { apply section_of_ok. intros l Hl Hne.
    destruct (mood_series_wf l Hne
                (proj2 (proj2 (proj2 (store_wf_lists _ _ _ Hd Hl))) eq_refl))
      as (pts & -> & _). eauto. }
  destruct Ht as [t Ht], Hn as [n Hn], Hh as [h Hh], Hm as [m Hm].
  exists t, n, h, m. repeat split; assumption.
Qed.

(** The page after the sample session. *)
Lemma reachable_store_renders_witness :
  exists data : store,
    run sample_clicks empty_store = Ok data /\
    exists tasks_shown notes_shown habits_shown mood_shown,
      tasks_section data = Ok tasks_shown /\
      notes_section data = Ok notes_shown /\
      habits_section data = Ok habits_shown /\
      mood_section data = Ok mood_shown.
Proof.
  eexists. split; [reflexivity|].
  apply reachable_store_renders. exists sample_clicks. reflexivity.
Defined.

(** X12. On every store a session reaches from the empty store, the only
    way a click can raise is a stale index: the click carries an index that
    is not within its list, and the exception is [IndexError].  No click
    raises [KeyError] or [TypeError] there. *)
Theorem reachable_store_only_stale_index_raises
    (data : store) (a : action) (e : exn) :
  reachable data ->
  handle a data = Raise e ->
  e = IndexError /\
  exists (i : nat) (l : list record),
    index_of a = Some i /\ data !! list_of a = Some l /\ length l <= i.
Proof.
  intros Hreach. pose proof (reachable_wf data Hreach) as Hd.
  destruct Hd as (tasks & notes & habits & mood_log
                  & H1 & F1 & H2 & F2 & H3 & F3 & H4 & F4).
  destruct a; simpl; intros He.
  - unfold add_task, getitem in He. rewrite H1 in He.
    case_bool_decide; discriminate He.
  - unfold mark_done, getitem, list_getitem in He. rewrite H1 in He. simpl in He.
    destruct (tasks !! i) eqn:Hi; simpl in He; [discriminate He|].
    injection He as <-. apply lookup_ge_None in Hi.
    split; [reflexivity|]. eexists _, _. repeat split; eassumption.
  - unfold update_task, getitem, list_getitem in He. rewrite H1 in He. simpl in He.
    destruct (tasks !! i) eqn:Hi; simpl in He; [discriminate He|].
    injection He as <-. apply lookup_ge_None in Hi.
    split; [reflexivity|]. eexists _, _. repeat split; eassumption.
  - unfold delete_task, getitem, pop in He. rewrite H1 in He. simpl in He.
    destruct (tasks !! i) eqn:Hi; simpl in He; [discriminate He|].
    injection He as <-. apply lookup_ge_None in Hi.
    split; [reflexivity|]. eexists _, _. repeat split; eassumption.
  - unfold add_note in He.
    destruct (bool_decide (strip note_title = []) || bool_decide (strip note_body = []));
      discriminate He.
  - unfold delete_note, getitem, pop in He. rewrite H2 in He. simpl in He.
    destruct (notes !! idx) eqn:Hi; simpl in He; [discriminate He|].
    injection He as <-. apply lookup_ge_None in Hi.
    split; [reflexivity|]. eexists _, _. repeat split; eassumption.
  - unfold add_habit in He. case_bool_decide; discriminate He.
  - unfold mark_habit_today, getitem, list_getitem in He. rewrite H3 in He. simpl in He.
    destruct (habits !! h_idx) as [h|] eqn:Hi; simpl in He.
    + destruct (Forall_lookup_1 _ _ _ _ F3 Hi) as (_ & n & Hn & _).
      rewrite Hn in He. discriminate He.
    + injection He as <-. apply lookup_ge_None in Hi.
      split; [reflexivity|]. eexists _, _. repeat split; eassumption.
  - discriminate He.
  - discriminate He.
Qed.

(** After the sample session there is one habit: marking a second one
    raises, and for that reason only. *)
Lemma reachable_store_only_stale_index_raises_witness :
  exists data : store,
    run sample_clicks empty_store = Ok data /\
    handle (MarkHabitToday 1) data = Raise IndexError /\
    exists (i : nat) (l : list record),
      index_of (MarkHabitToday 1) = Some i /\
      data !! list_of (MarkHabitToday 1) = Some l /\ length l <= i.
Proof.
  eexists. split; [reflexivity|].
  split; [reflexivity|].
  eapply (reachable_store_only_stale_index_raises _ (MarkHabitToday 1) IndexError).
  - exists sample_clicks. reflexivity.
  - reflexivity.
Defined.

(** X13. On every store a session reaches from the empty store, the line
    of every habit shows a streak that is an integer and is never negative:
    a habit starts at 0 and a click only ever adds 1. *)
Theorem reachable_streaks_are_counters
    (data : store) (habits : list record) (h : record) :
  reachable data ->
  data !! "habits" = Some habits ->
  h ∈ habits ->
  exists (name : value) (n : Z), habit_view h = Ok (name, VInt n) /\ (0 <= n)%Z.
Proof.
  intros Hreach Hhabits Hh. pose proof (reachable_wf data Hreach) as Hd.
  pose proof (proj1 (proj2 (proj2 (store_wf_lists _ _ _ Hd Hhabits))) eq_refl) as Hwf.
  rewrite Forall_forall in Hwf. exact (habit_view_wf h (Hwf h Hh)).
Qed.

(** The habit of the sample session, marked twice. *)
Lemma reachable_streaks_are_counters_witness :
  exists (name : value) (n : Z),
    habit_view (<["streak" := VInt 2]> (new_habit (py "run"))) = Ok (name, VInt n) /\
    (0 <= n)%Z.
Proof.
  eapply (reachable_streaks_are_counters _ [<["streak" := VInt 2]> (new_habit (py "run"))]).
  - exists sample_clicks. reflexivity.
  - by_eval.
  - apply list_elem_of_here.
Defined.

(** X14. On every store a session reaches from the empty store, the mood
    chart has exactly one point per entry of the mood log, and every point
    has an ISO date and a score between 1 and 5. *)
Theorem reachable_mood_chart
    (data : store) (mood_log : list record)
    (pts : list (option value * option Z)) :
  reachable data ->
  data !! "mood_log" = Some mood_log ->
  mood_section data = Ok (Some pts) ->
  length pts = length mood_log /\ Forall chart_point pts.
Proof.
  intros Hreach Hlog Hpts. pose proof (reachable_wf data Hreach) as Hd.
  pose proof (proj2 (proj2 (proj2 (store_wf_lists _ _ _ Hd Hlog))) eq_refl) as Hwf.
  unfold mood_section, section_of in Hpts. rewrite Hlog in Hpts. simpl in Hpts.
  destruct mood_log as [|r l]; [discriminate Hpts|].
  destruct (mood_series_wf (r :: l) ltac:(discriminate) Hwf) as (pts' & Hs & Hlen & Hall).
  rewrite Hs in Hpts. simpl in Hpts. injection Hpts as <-. split; assumption.
Qed.

(** The two moods of the sample session. *)
Lemma reachable_mood_chart_witness :
  exists (data : store) (pts : list (option value * option Z)),
    run sample_clicks empty_store = Ok data /\
    mood_section data = Ok (Some pts) /\
    length pts = 2 /\ Forall chart_point pts.
Proof.
  eexists. eexists. split; [reflexivity|]. split; [reflexivity|].
  eapply (reachable_mood_chart _ [new_mood_entry Sad (Date 2024 3 9);
                                  new_mood_entry Great (Date 2024 3 9)]).
  - exists sample_clicks. reflexivity.
  - by_eval.
  - reflexivity.
Defined.

(** ** Sessions on the data file *)

Lemma script_run_loaded
    (pickle_dump : store -> bytes) (pickle_load : bytes -> result store)
    (a : action) (data : store) (data_file : option bytes) :
  load_data pickle_load data_file = Ok data ->
  script_run pickle_dump pickle_load a data_file
  = (o <- handle a data ;; Ok (Some (pickle_dump (after o data)))).
Proof. intros Hload. unfold script_run. rewrite Hload. reflexivity. Qed.

Lemma disk_session_run
    (pickle_dump : store -> bytes) (pickle_load : bytes -> result store)
    (acts : list action) (data : store) (data_file : option bytes) :
  (forall d : store, pickle_load (pickle_dump d) = Ok d) ->
  load_data pickle_load data_file = Ok data ->
  disk_session pickle_dump pickle_load acts data_file
  = (d' <- run acts data ;;
     Ok (match acts with [] => data_file | _ :: _ => Some (pickle_dump d') end)).
Proof.
  intros Hpickle. revert data data_file.
  induction acts as [|a rest IH]; intros data data_file Hload; [reflexivity|].
  simpl. rewrite (script_run_loaded _ _ a data data_file Hload).
  destruct (handle a data) as [o|e]; simpl; [|reflexivity].
  rewrite (IH (after o data)) by (simpl; rewrite Hpickle; reflexivity).
  destruct (run rest (after o data)) as [d'|e] eqn:Hrun; simpl; [|reflexivity].
  destruct rest; [|reflexivity].
  simpl in Hrun. injection Hrun as <-. reflexivity.
Qed.



(** ** Records with missing keys on the page *)

Lemma for_each_rows {A B} (f : A -> result B) (l : list A) (ys : list B) :
  for_each f l = Ok ys -> Forall2 (fun x y => f x = Ok y) l ys.
Proof.
  revert ys. induction l as [|x l IH]; intros ys; simpl.
  - intros [= <-]. apply Forall2_nil. exact I.
  - destruct (f x) as [y|e] eqn:Hx; simpl; [|discriminate].
    destruct (for_each f l) as [ys'|e]; simpl; [|discriminate].
    intros [= <-]. apply Forall2_cons. split; [exact Hx|apply IH; reflexivity].
Qed.

Lemma for_each_raises {A B} (f : A -> result B) (l : list A) (e : exn) :
  (forall x e', f x = Raise e' -> e' = e) ->
  Exists (fun x => exists e', f x = Raise e') l ->
  for_each f l = Raise e.
Proof.
  intros Hf. induction 1 as [x l [e' Hx]|x l _ IH]; simpl.
  - rewrite Hx. simpl. f_equal. exact (Hf x e' Hx).
  - destruct (f x) as [y|e'] eqn:Hx; simpl.
    + rewrite IH. reflexivity.
    + f_equal. exact (Hf x e' Hx).
Qed.

Lemma section_of_rows {B} (data : store) (k : string)
    (rows : list record -> result B) (l : list record) :
  data !! k = Some l -> l <> [] ->
  section_of data k rows = (r <- rows l ;; Ok (Some r)).
Proof.
  intros Hk Hne. unfold section_of. rewrite Hk. simpl.
  destruct l; [congruence|reflexivity].
Qed.

(** X16. The tasks section shows the [st.info] message when the task list
    is missing or empty.  Otherwise, when every task has a name, it shows
    one row per task in list order, with the name of the task and with
    [Pending], [-] and [-] where the task has no status, priority or due
    date; and a single task without a name makes the whole section raise
    [KeyError]. *)
Theorem tasks_section_rows (data : store) :
  (default [] (data !! "tasks") = [] -> tasks_section data = Ok None) /\
  (forall tasks : list record,
      data !! "tasks" = Some tasks ->
      tasks <> [] ->
      (Forall task_wf tasks ->
       exists rows : list task_row,
         tasks_section data = Ok (Some rows) /\
         length rows = length tasks /\
         forall (i : nat) (t : record),
           tasks !! i = Some t ->
           exists name : value,
             t !! "name" = Some name /\
             rows !! i = Some (TaskRow name
                                 (default (VStr (py "Pending")) (t !! "status"))
                                 (default (VStr (py "-")) (t !! "priority"))
                                 (default (VStr (py "-")) (t !! "due")))) /\
      (Exists (fun t => t !! "name" = None) tasks ->
       tasks_section data = Raise KeyError)).
Proof.
  split.
  - intros Hnil. unfold tasks_section, section_of. rewrite Hnil. reflexivity.
  - intros tasks Htasks Hne. unfold tasks_section.
    rewrite (section_of_rows data "tasks" _ tasks Htasks Hne). split.
    + intros Hwf.
      destruct (for_each_ok task_view tasks) as (rows & Hrows & Hlen).
      { eapply Forall_impl; [exact Hwf|]. exact task_view_wf. }
      exists rows. rewrite Hrows. split; [reflexivity|]. split; [exact Hlen|].
      intros i t Hi. pose proof (for_each_rows _ _ _ Hrows) as H2.
      destruct (Forall2_lookup_l _ _ _ _ _ H2 Hi) as (row & Hrow & Hview).
      unfold task_view, getitem in Hview.
      destruct (t !! "name") as [name|]; simpl in Hview; [|discriminate Hview].
      injection Hview as <-. exists name. split; [reflexivity|exact Hrow].
    + intros Hex. rewrite (for_each_raises task_view tasks KeyError); [reflexivity| |].
      * intros t e. unfold task_view, getitem.
        destruct (t !! "name"); simpl; [discriminate|]. intros [= <-]. reflexivity.
      * eapply Exists_impl; [exact Hex|]. intros t Hname. exists KeyError.
        unfold task_view, getitem. rewrite Hname. reflexivity.
Qed.

(** A task list as an older file may hold it: one task with a name only,
    and one with no name. *)
Lemma tasks_section_rows_witness :
  tasks_section (<["tasks" := [<["name" := VStr (py "Buy milk")]> ∅]]> ∅)
  = Ok (Some [TaskRow (VStr (py "Buy milk")) (VStr (py "Pending"))
                (VStr (py "-")) (VStr (py "-"))]) /\
  tasks_section (<["tasks" := [milk_task; <["status" := VStr (py "Pending")]> ∅]]> ∅)
  = Raise KeyError.
Proof.
  split.
  - destruct (proj2 (tasks_section_rows
                       (<["tasks" := [<["name" := VStr (py "Buy milk")]> ∅]]> ∅))
                [<["name" := VStr (py "Buy milk")]> ∅]) as [Hrows _];
      [apply lookup_insert_eq|discriminate|].
    destruct Hrows as (rows & -> & Hlen & Hrow).
    { apply Forall_cons. split; [eexists; reflexivity|apply Forall_nil; exact I]. }
    destruct (Hrow 0 (<["name" := VStr (py "Buy milk")]> ∅)) as (name & Hname & H0);
      [reflexivity|].
    rewrite lookup_insert_eq in Hname. injection Hname as <-.
    destruct rows as [|r [|r' rows]]; simpl in Hlen, H0; try discriminate.
    injection H0 as ->. reflexivity.
  - apply (proj2 (tasks_section_rows
                    (<["tasks" := [milk_task; <["status" := VStr (py "Pending")]> ∅]]> ∅))
             [milk_task; <["status" := VStr (py "Pending")]> ∅]);
      [apply lookup_insert_eq|discriminate|].
    apply Exists_cons_tl, Exists_cons_hd. reflexivity.
Defined.

(** X17. The habits section shows the [st.info] message when the habit
    list is missing or empty.  Otherwise it shows one line per habit with
    its name and its streak when every habit has both keys, and it raises
    [KeyError] as soon as one habit has no name or no streak: the line
    reads the streak without the default that [Mark today] uses. *)
Theorem habits_section_rows (data : store) :
  (default [] (data !! "habits") = [] -> habits_section data = Ok None) /\
  (forall habits : list record,
      data !! "habits" = Some habits ->
      habits <> [] ->
      (Forall (fun h => is_Some (h !! "name") /\ is_Some (h !! "streak")) habits ->
       exists rows : list (value * value),
         habits_section data = Ok (Some rows) /\
         length rows = length habits /\
         forall (i : nat) (h : record),
           habits !! i = Some h ->
           exists name streak : value,
             h !! "name" = Some name /\ h !! "streak" = Some streak /\
             rows !! i = Some (name, streak)) /\
      (Exists (fun h => h !! "name" = None \/ h !! "streak" = None) habits ->
       habits_section data = Raise KeyError)).
Proof.
  split.
  - intros Hnil. unfold habits_section, section_of. rewrite Hnil. reflexivity.
  - intros habits Hhabits Hne. unfold habits_section.
    rewrite (section_of_rows data "habits" _ habits Hhabits Hne). split.
    + intros Hwf.
      destruct (for_each_ok habit_view habits) as (rows & Hrows & Hlen).
      { eapply Forall_impl; [exact Hwf|]. intros h [[name Hn] [streak Hs]].
        unfold habit_view, getitem. rewrite Hn. simpl. rewrite Hs. simpl. eauto. }
      exists rows. rewrite Hrows. split; [reflexivity|]. split; [exact Hlen|].
      intros i h Hi. pose proof (for_each_rows _ _ _ Hrows) as H2.
      destruct (Forall2_lookup_l _ _ _ _ _ H2 Hi) as (row & Hrow & Hview).
      unfold habit_view, getitem in Hview.
      destruct (h !! "name") as [name|]; simpl in Hview; [|discriminate Hview].
      destruct (h !! "streak") as [streak|]; simpl in Hview; [|discriminate Hview].
      injection Hview as <-. exists name, streak. repeat split. exact Hrow.
    + intros Hex. rewrite (for_each_raises habit_view habits KeyError); [reflexivity| |].
      * intros h e. unfold habit_view, getitem.
        destruct (h !! "name"); simpl; [|intros [= <-]; reflexivity].
        destruct (h !! "streak"); simpl; [discriminate|]. intros [= <-]. reflexivity.
      * eapply Exists_impl; [exact Hex|]. intros h Hmiss. exists KeyError.
        unfold habit_view, getitem. destruct Hmiss as [Hn|Hs].
        -- rewrite Hn. reflexivity.
        -- destruct (h !! "name"); simpl; [rewrite Hs|]; reflexivity.
Qed.

(** A habit as an older file may hold it, with no streak. *)
Lemma habits_section_rows_witness :
  habits_section (<["habits" := [<["name" := VStr (py "run")]> ∅]]> ∅) = Raise KeyError.
Proof.
  apply (proj2 (habits_section_rows (<["habits" := [<["name" := VStr (py "run")]> ∅]]> ∅))
           [<["name" := VStr (py "run")]> ∅]);
    [apply lookup_insert_eq|discriminate|].
  apply Exists_cons_hd. right. reflexivity.
Defined.

(** ** The mood frame on arbitrary logs *)

Lemma mapping_lookup (label : str) (z : Z) :
  mapping !! label = Some z <->
  exists i : nat, mood_options !! i = Some label /\ z = (Z.of_nat i + 1)%Z.
Proof.
  split.
  - unfold mapping. simpl. rewrite !lookup_insert_Some, lookup_empty.
    intros H.
    repeat (destruct H as [[<- <-]|[_ H]];
            [first [exists 0; split; reflexivity | exists 1; split; reflexivity
                   | exists 2; split; reflexivity | exists 3; split; reflexivity
                   | exists 4; split; reflexivity]|]).
    discriminate H.
  - intros (i & Hi & ->).
    do 5 (destruct i as [|i]; [injection Hi as <-; by_eval|]).
    discriminate Hi.
Qed.

(** X18. The score column is defined by position in [mood_options]: a
    label has the score [z] exactly when it is the option at index [z - 1],
    and an entry whose mood is a string outside the five options has no
    score.  As soon as one entry of the log has a [mood] key the frame has
    one row per entry, in log order, each with the date and the score of
    its entry (none where they are missing); when no entry has a [mood]
    key, reading the column raises [KeyError]. *)
Theorem mood_series_rows :
  (forall (label : str) (z : Z),
      mapping !! label = Some z <->
      exists i : nat, mood_options !! i = Some label /\ z = (Z.of_nat i + 1)%Z) /\
  (forall (r : record) (label : str),
      r !! "mood" = Some (VStr label) -> label ∉ mood_options -> score r = None) /\
  (forall mood_log : list record,
      Exists (fun r => is_Some (r !! "mood")) mood_log ->
      exists pts : list (option value * option Z),
        mood_series mood_log = Ok pts /\
        length pts = length mood_log /\
        forall (i : nat) (r : record),
          mood_log !! i = Some r -> pts !! i = Some (r !! "date", score r)) /\
  (forall mood_log : list record,
      Forall (fun r => r !! "mood" = None) mood_log ->
      mood_series mood_log = Raise KeyError).
Proof.
  split; [exact mapping_lookup|]. split; [|split].
  - intros r label Hr Hnot. unfold score. rewrite Hr.
    destruct (mapping !! label) as [z|] eqn:Hz; [|reflexivity].
    apply mapping_lookup in Hz as (i & Hi & _).
    exfalso. apply Hnot. apply list_elem_of_lookup. eauto.
  - intros mood_log Hex. unfold mood_series.
    rewrite bool_decide_eq_true_2 by exact Hex.
    eexists. split; [reflexivity|]. split; [apply length_fmap|].
    intros i r Hi. rewrite list_lookup_fmap, Hi. reflexivity.
  - intros mood_log Hall. unfold mood_series.
    rewrite bool_decide_eq_false_2; [reflexivity|].
    intros Hex. apply Exists_exists in Hex as (r & Hr & [v Hv]).
    rewrite Forall_forall in Hall. rewrite (Hall r Hr) in Hv. discriminate Hv.
Qed.

(** A log with a label that is not on the slider, and a log whose only
    entry has no mood. *)
Lemma mood_series_rows_witness :
  mood_series [<["mood" := VStr (py "Fine")]> (<["date" := VStr (py "2024-03-09")]> ∅);
               new_mood_entry Meh (Date 2024 3 10)]
  = Ok [(Some (VStr (py "2024-03-09")), None);
        (Some (VStr (py "2024-03-10")), Some 2%Z)] /\
  mood_series [<["date" := VStr (py "2024-03-09")]> ∅] = Raise KeyError.
Proof.
  split; [by_eval|].
  apply (proj2 (proj2 (proj2 mood_series_rows))).
  apply Forall_cons. split; [reflexivity|apply Forall_nil; exact I].
Defined.
